(** * archivodenubes: search, selection and highlight of map features

    A shallow embedding of the search-and-highlight part of [src/script.js]
    (the second, current revision in that file: [resetFeatureStyle],
    [getFormattedFeatureInfo], the map click handler, [initializeSearchFeatures],
    [performSearch] and the search box handlers), followed by the properties
    the specification states about it.

    JavaScript values are a small tagged union, property bags are association
    lists in enumeration order, the module-level variables and the pieces of
    the DOM the handlers touch are the fields of one [State] record, and an
    uncaught [TypeError] is an explicit result. *)

From Stdlib Require Import ZArith String Ascii List Bool Lia.
From Stdlib Require QArith.
From stdpp Require Import base decidable countable list strings pretty gmap.

Open Scope string_scope.
Open Scope Z_scope.

(** ** JavaScript values and strings *)

Module JS.

(** The values a GeoJSON property can hold, [undefined] (what [feature.get]
    answers for a missing key) and [VObj] for any object or array, such as a
    geometry or a [lineDash] pattern. *)
Inductive value : Type :=
  | VUndefined
  | VNull
  | VNum (n : Z)
  | VStr (s : string)
  | VObj.

#[global] Instance value_eq_dec : EqDecision value.
Proof. solve_decision. Defined.

Definition value_encode (v : value) : (Z + string) + nat :=
  match v with
  | VNum n => inl (inl n)
  | VStr s => inl (inr s)
  | VUndefined => inr 0%nat
  | VNull => inr 1%nat
  | VObj => inr 2%nat
  end.

Definition value_decode (x : (Z + string) + nat) : value :=
  match x with
  | inl (inl n) => VNum n
  | inl (inr s) => VStr s
  | inr 0%nat => VUndefined
  | inr 1%nat => VNull
  | inr _ => VObj
  end.

#[global] Instance value_countable : Countable value.
Proof.
  apply (inj_countable' value_encode value_decode).
  intros []; reflexivity.
Defined.

(** [ToBoolean]: what [if (v)], [v && e] and [v || e] test. *)
Definition truthy (v : value) : bool :=
  match v with
  | VUndefined | VNull => false
  | VNum n => negb (n =? 0)
  | VStr s => negb (String.eqb s "")
  | VObj => true
  end.

(** [a || b] on values. *)
Definition or_else (a b : value) : value := if truthy a then a else b.

(** The result of an expression that can throw. *)
Inductive Result (A : Type) : Type :=
  | Ok (a : A)
  | TypeError.
Arguments Ok {A} a.
Arguments TypeError {A}.

(** [String.prototype.startsWith] and [String.prototype.includes]. *)
Fixpoint startsWith (s p : string) : bool :=
  match p, s with
  | EmptyString, _ => true
  | String _ _, EmptyString => false
  | String a p', String b s' => if Ascii.eqb a b then startsWith s' p' else false
  end.

Fixpoint includes (s t : string) : bool :=
  startsWith s t ||
  match s with
  | EmptyString => false
  | String _ s' => includes s' t
  end.

(** The built-ins the program calls and does not define: case mapping
    (which maps the empty string to itself) and the white space that [trim]
    strips. *)
Class Builtins : Type := {
  toLowerCase : string -> string;
  isWhiteSpace : ascii -> bool;
  toLowerCase_empty : toLowerCase "" = ""
}.

Section Trim.
Context `{Builtins}.

Fixpoint trimStart (s : string) : string :=
  match s with
  | EmptyString => EmptyString
  | String c s' => if isWhiteSpace c then trimStart s' else s
  end.

Fixpoint trimEnd (s : string) : string :=
  match s with
  | EmptyString => EmptyString
  | String c s' =>
      match trimEnd s' with
      | EmptyString => if isWhiteSpace c then EmptyString else String c EmptyString
      | r => String c r
      end
  end.

(** [String.prototype.trim]. *)
Definition trim (s : string) : string := trimEnd (trimStart s).

Fixpoint whitespaceOnly (s : string) : bool :=
  match s with
  | EmptyString => true
  | String c s' => isWhiteSpace c && whitespaceOnly s'
  end.
End Trim.

(** ASCII letters, for the places where the program itself fixes the
    alphabet (the regular expression [\w]) and for running the model. *)
Definition isUpperAscii (c : ascii) : bool :=
  (65 <=? nat_of_ascii c)%nat && (nat_of_ascii c <=? 90)%nat.
Definition isLowerAscii (c : ascii) : bool :=
  (97 <=? nat_of_ascii c)%nat && (nat_of_ascii c <=? 122)%nat.
Definition isDigitAscii (c : ascii) : bool :=
  (48 <=? nat_of_ascii c)%nat && (nat_of_ascii c <=? 57)%nat.

Definition lowerAscii (c : ascii) : ascii :=
  if isUpperAscii c then ascii_of_nat (nat_of_ascii c + 32) else c.
Definition upperAscii (c : ascii) : ascii :=
  if isLowerAscii c then ascii_of_nat (nat_of_ascii c - 32) else c.

Fixpoint mapString (f : ascii -> ascii) (s : string) : string :=
  match s with
  | EmptyString => EmptyString
  | String c s' => String (f c) (mapString f s')
  end.

(** The built-ins restricted to ASCII text: lower-casing of [A-Z], and tab,
    line feed, vertical tab, form feed, carriage return and space as white
    space. *)
Definition asciiBuiltins : Builtins := {|
  toLowerCase := mapString lowerAscii;
  isWhiteSpace := fun c =>
    let n := nat_of_ascii c in
    ((9 <=? n)%nat && (n <=? 13)%nat) || (n =? 32)%nat;
  toLowerCase_empty := eq_refl
|}.

End JS.

Import JS.

(** ** Features, layers and styles *)

(** A bounding extent [minx, miny, maxx, maxy]. *)
Definition Extent : Type := (Z * Z * Z * Z)%type.

(** An [ol.Feature]: [fid] stands for the identity of the object,
    [properties] for its property bag in enumeration order (what
    [getProperties] returns and [get] reads), [geometry] for the extent of
    [getGeometry()] when there is one. The style override of a feature is
    mutable and lives in the [State] below. *)
Record Feature : Type := {
  fid : nat;
  properties : list (string * value);
  geometry : option Extent
}.

Fixpoint lookupKey {A : Type} (k : string) (l : list (string * A)) : option A :=
  match l with
  | [] => None
  | (k', v) :: l' => if String.eqb k' k then Some v else lookupKey k l'
  end.

(** [feature.get(key)]. *)
Definition get (f : Feature) (k : string) : value :=
  match lookupKey k (properties f) with
  | Some v => v
  | None => VUndefined
  end.

(** The four vector layers, and the layers of the map in the order
    [map.getLayers()] holds them: the tile layer of the constructor, then the
    four [map.addLayer] calls. *)
Inductive Layer : Type :=
  | cableLayer
  | landCableLayer
  | pointLayer
  | dataCenterLayer.

#[global] Instance Layer_eq_dec : EqDecision Layer.
Proof. solve_decision. Defined.

Inductive MapLayer : Type :=
  | TileLayer
  | VectorLayer (l : Layer).

Definition mapLayers : list MapLayer :=
  [TileLayer; VectorLayer cableLayer; VectorLayer landCableLayer;
   VectorLayer pointLayer; VectorLayer dataCenterLayer].

(** What a layer's style function returns: one style or an array of them. *)
Inductive StyleLike (Style : Type) : Type :=
  | OneStyle (st : Style)
  | StyleArray (sts : list Style).
Arguments OneStyle {Style} st.
Arguments StyleArray {Style} sts.

(** The rendering side, which the properties below do not look into: the
    type of [ol.style.Style] objects, the glow decoration and the style
    function of each layer. *)
Class Rendering : Type := {
  Style : Type;
  glowStyle : Style;
  getStyle : Layer -> Feature -> StyleLike Style
}.

(** ** The formatter *)

Module Formatter.

Definition translationDict : list (string * string) :=
  [("name", "Nombre"); ("type", "Tipo"); ("empresa", "Empresa");
   ("shape", "Forma"); ("color", "Color"); ("size", "Tamaño");
   ("address", "Dirección"); ("pue", "Eficiencia Energética (PUE)");
   ("wue", "Eficiencia Hídrica (WUE)"); ("dimensiones", "Dimensiones Físicas");
   ("tecnologias", "Tecnologías Empleadas");
   ("sistemas_refrigeracion", "Sistemas de Refrigeración");
   ("consumo_agua", "Consumo de Agua"); ("uso_suelo", "Uso de Suelo");
   ("emisiones", "Datos sobre Emisiones"); ("source", "Fuente");
   ("reference_link", "Enlace de Referencia"); ("length_km", "Longitud (km)");
   ("image", "Imagen"); ("width", "Ancho"); ("año", "Año");
   ("consultora", "Consultora"); ("superficie_predial", "Superficie Predial");
   ("superficie_construida", "Superficie Construida");
   ("inversion", "Inversión");
   ("tipo_de_refrigeracion", "Tipo de Refrigeración");
   ("evaluacion_ambiental", "Evaluación Ambiental"); ("comuna", "Comuna")].

Definition excludedKeys : list string :=
  ["name"; "type"; "shape"; "color"; "size"; "opacity"; "geometry"; "width";
   "lineDash"; "id"].

(** [Array.prototype.includes] on an array of strings. *)
Definition arrayIncludes (l : list string) (k : string) : bool :=
  existsb (String.eqb k) l.

(** [key.replace(/_/g, ' ')]. *)
Definition replaceUnderscores (s : string) : string :=
  mapString (fun c => if Ascii.eqb c "_"%char then " "%char else c) s.

(** The class [\w]. *)
Definition isWordChar (c : ascii) : bool :=
  isUpperAscii c || isLowerAscii c || isDigitAscii c || Ascii.eqb c "_"%char.

(** [s.replace(/\b\w/g, c => c.toUpperCase())]: a word character is put in
    upper case when no word character comes right before it. *)
Fixpoint capitalizeFrom (prevIsWord : bool) (s : string) : string :=
  match s with
  | EmptyString => EmptyString
  | String c s' =>
      String (if isWordChar c && negb prevIsWord then upperAscii c else c)
             (capitalizeFrom (isWordChar c) s')
  end.

Definition capitalizeWords (s : string) : string := capitalizeFrom false s.

(** The pieces of the HTML fragment, in place of their concatenated text. *)
Inductive Html : Type :=
  | Title (name : value)
  | Subtitle (type : value)
  | ImageItem (src : string) (alt : value)
  | LinkItem (label : string) (href : value)
  | InfoItem (label : string) (v : value).

Section Format.
Context `{Builtins}.

(** The body of the [for (const key in properties)] loop. *)
Definition formatProperty (name : value) (key : string) (v : value) : list Html :=
  let lowercaseKey := toLowerCase key in
  if negb (arrayIncludes excludedKeys lowercaseKey) && truthy v then
    let translatedKey :=
      match lookupKey lowercaseKey translationDict with
      | Some label => label
      | None => capitalizeWords (replaceUnderscores key)
      end in
    if String.eqb lowercaseKey "image" && truthy v then
      match v with
      | VStr src => if startsWith src "http" then [ImageItem src name] else []
      | _ => []
      end
    else if String.eqb lowercaseKey "reference_link" && truthy v then
      [LinkItem translatedKey v]
    else
      match v with
      | VNull | VUndefined | VStr EmptyString => []
      | _ => [InfoItem translatedKey v]
      end
  else [].

Definition getFormattedFeatureInfo (feature : Feature) : list Html :=
  let name := or_else (get feature "name") (VStr "Información del Elemento") in
  let type := or_else (get feature "type") (VStr "Elemento") in
  Title name :: Subtitle type ::
  flat_map (fun kv => formatProperty name (fst kv) (snd kv)) (properties feature).

End Format.
End Formatter.

(** ** Matching and scanning *)

Module Search.

(** [a || b] where both sides can throw: [b] is evaluated only when [a] is
    false. *)
Definition orR (a b : Result bool) : Result bool :=
  match a with
  | Ok true => Ok true
  | Ok false => b
  | TypeError => TypeError
  end.

#[local] Infix "|||" := orR (at level 50, left associativity).

Section Predicates.
Context `{Builtins}.

(** [v && v.toLowerCase().includes(term)]: false on a falsy value, a
    [TypeError] on a truthy value that is not a string. *)
Definition fieldIncludes (v : value) (term : string) : Result bool :=
  if truthy v then
    match v with
    | VStr s => Ok (includes (toLowerCase s) term)
    | _ => TypeError
    end
  else Ok false.

(** The test of the inner [features.forEach] of [performSearch]. *)
Definition performSearchMatches (feature : Feature) (searchTerm : string) : Result bool :=
  let lowerSearchTerm := toLowerCase searchTerm in
  let name := or_else (get feature "name") (get feature "nombre") in
  let location := or_else (get feature "location") (get feature "ubicación") in
  let address := or_else (get feature "address") (get feature "Dirección") in
  let comuna := get feature "comuna" in
  let empresa := get feature "Empresa" in
  let operator := or_else (get feature "operator") (get feature "operador") in
  fieldIncludes name lowerSearchTerm |||
  fieldIncludes location lowerSearchTerm |||
  fieldIncludes address lowerSearchTerm |||
  fieldIncludes comuna lowerSearchTerm |||
  fieldIncludes empresa lowerSearchTerm |||
  fieldIncludes operator lowerSearchTerm.

(** The callback of [allFeatures.filter] in the keyup handler; [searchTerm]
    is already trimmed and in lower case there. *)
Definition suggestMatches (feature : Feature) (searchTerm : string) : Result bool :=
  let name := or_else (get feature "name") (get feature "nombre") in
  let type := get feature "type" in
  let location := or_else (get feature "location") (get feature "ubicación") in
  let address := or_else (get feature "address") (get feature "Dirección") in
  let comuna := get feature "comuna" in
  let empresa := get feature "Empresa" in
  let operator := or_else (get feature "operator") (get feature "operador") in
  fieldIncludes name searchTerm |||
  fieldIncludes type searchTerm |||
  fieldIncludes location searchTerm |||
  fieldIncludes address searchTerm |||
  fieldIncludes comuna searchTerm |||
  fieldIncludes empresa searchTerm |||
  fieldIncludes operator searchTerm.

(** [features.forEach] of one layer: every match overwrites [found]. *)
Fixpoint scanFeatures (searchTerm : string) (layer : Layer) (features : list Feature)
    (found : option (Feature * Layer)) : Result (option (Feature * Layer)) :=
  match features with
  | [] => Ok found
  | feature :: rest =>
      match performSearchMatches feature searchTerm with
      | TypeError => TypeError
      | Ok true => scanFeatures searchTerm layer rest (Some (feature, layer))
      | Ok false => scanFeatures searchTerm layer rest found
      end
  end.

(** [map.getLayers().forEach]: only layers with a vector source are looked
    into; [getFeatures l] is what the source of [l] holds. *)
Fixpoint scanLayers (searchTerm : string) (getFeatures : Layer -> list Feature)
    (layers : list MapLayer) (found : option (Feature * Layer))
    : Result (option (Feature * Layer)) :=
  match layers with
  | [] => Ok found
  | TileLayer :: rest => scanLayers searchTerm getFeatures rest found
  | VectorLayer l :: rest =>
      match scanFeatures searchTerm l (getFeatures l) found with
      | TypeError => TypeError
      | Ok found' => scanLayers searchTerm getFeatures rest found'
      end
  end.

(** [allFeatures.filter(...)]. *)
Fixpoint filterMatching (searchTerm : string) (features : list Feature)
    : Result (list Feature) :=
  match features with
  | [] => Ok []
  | feature :: rest =>
      match suggestMatches feature searchTerm with
      | TypeError => TypeError
      | Ok b =>
          match filterMatching searchTerm rest with
          | TypeError => TypeError
          | Ok l => Ok (if b then feature :: l else l)
          end
      end
  end.

End Predicates.

(** The key under which the keyup handler remembers a suggestion. *)
Definition featureId (feature : Feature) : value :=
  or_else (get feature "name") (get feature "id").

(** [matchingFeatures.forEach] with the [addedFeatureIds] set: the features
    that get a suggestion item, in order. *)
Fixpoint dedupe (matchingFeatures : list Feature) (addedFeatureIds : gset value)
    : list Feature :=
  match matchingFeatures with
  | [] => []
  | feature :: rest =>
      if decide (featureId feature ∈ addedFeatureIds) then dedupe rest addedFeatureIds
      else feature :: dedupe rest ({[featureId feature]} ∪ addedFeatureIds)
  end.

End Search.

(** ** The page state and its handlers *)

Module App.
Import Formatter Search.

Inductive SourceState : Type :=
  | loading
  | ready
  | error.

(** An [ol.source.Vector]: its state and what [getFeatures()] returns. *)
Record VectorSource : Type := {
  getState : SourceState;
  getFeatures : list Feature
}.

(** The options of one [view.fit] call. *)
Record FitOptions : Type := {
  fitExtent : Extent;
  duration : Z;
  padding : list Z;
  maxZoom : Z
}.

(** What a handler reads from the layout: [window.innerWidth] and the
    rendered size of the info panel. *)
Record Viewport : Type := {
  innerWidth : Z;
  offsetHeight : Z;
  offsetWidth : Z
}.

(** The children of the suggestions element. A suggestion item keeps the
    feature its click listener closes over. *)
Inductive SuggestionNode : Type :=
  | SuggestionItem (feature : Feature) (nameText typeText : value)
  | NoResultsMessage (text : string).

Section Handlers.
Context `{Builtins} `{Rendering}.

(** The module-level variables ([selectedFeature], [isClickOnFeature],
    [allFeatures]), the mutable parts of the map (style overrides by feature
    identity, the pending [map.once('moveend', ...)] listeners by the layer
    each one captured, the [view.fit] calls made, the vector sources) and of
    the DOM (panel classes and content, search box, suggestions element, the
    alerts raised). Writes that only concern layout (the display of the layer
    toggle button, [scrollTop]) are left out. *)
Record State : Type := {
  selectedFeature : option Feature;
  featureStyle : gmap nat (list Style);
  moveendOnce : list Layer;
  fitRequests : list FitOptions;
  isClickOnFeature : bool;
  infoPanelOpen : bool;
  panelContent : list Html;
  layerControlsOpen : bool;
  sources : Layer -> VectorSource;
  allFeatures : list Feature;
  searchBoxValue : string;
  suggestionsList : list SuggestionNode;
  suggestionsShown : bool;
  alerts : list string
}.

Definition set_selectedFeature (v : option Feature) (s : State) : State :=
  {| selectedFeature := v; featureStyle := featureStyle s;
     moveendOnce := moveendOnce s; fitRequests := fitRequests s;
     isClickOnFeature := isClickOnFeature s;
     infoPanelOpen := infoPanelOpen s; panelContent := panelContent s;
     layerControlsOpen := layerControlsOpen s; sources := sources s;
     allFeatures := allFeatures s; searchBoxValue := searchBoxValue s;
     suggestionsList := suggestionsList s;
     suggestionsShown := suggestionsShown s; alerts := alerts s |}.

Definition set_featureStyle (v : gmap nat (list Style)) (s : State) : State :=
  {| selectedFeature := selectedFeature s; featureStyle := v;
     moveendOnce := moveendOnce s; fitRequests := fitRequests s;
     isClickOnFeature := isClickOnFeature s;
     infoPanelOpen := infoPanelOpen s; panelContent := panelContent s;
     layerControlsOpen := layerControlsOpen s; sources := sources s;
     allFeatures := allFeatures s; searchBoxValue := searchBoxValue s;
     suggestionsList := suggestionsList s;
     suggestionsShown := suggestionsShown s; alerts := alerts s |}.

Definition set_moveendOnce (v : list Layer) (s : State) : State :=
  {| selectedFeature := selectedFeature s; featureStyle := featureStyle s;
     moveendOnce := v; fitRequests := fitRequests s;
     isClickOnFeature := isClickOnFeature s;
     infoPanelOpen := infoPanelOpen s; panelContent := panelContent s;
     layerControlsOpen := layerControlsOpen s; sources := sources s;
     allFeatures := allFeatures s; searchBoxValue := searchBoxValue s;
     suggestionsList := suggestionsList s;
     suggestionsShown := suggestionsShown s; alerts := alerts s |}.

Definition set_fitRequests (v : list FitOptions) (s : State) : State :=
  {| selectedFeature := selectedFeature s; featureStyle := featureStyle s;
     moveendOnce := moveendOnce s; fitRequests := v;
     isClickOnFeature := isClickOnFeature s;
     infoPanelOpen := infoPanelOpen s; panelContent := panelContent s;
     layerControlsOpen := layerControlsOpen s; sources := sources s;
     allFeatures := allFeatures s; searchBoxValue := searchBoxValue s;
     suggestionsList := suggestionsList s;
     suggestionsShown := suggestionsShown s; alerts := alerts s |}.

Definition set_isClickOnFeature (v : bool) (s : State) : State :=
  {| selectedFeature := selectedFeature s; featureStyle := featureStyle s;
     moveendOnce := moveendOnce s; fitRequests := fitRequests s;
     isClickOnFeature := v; infoPanelOpen := infoPanelOpen s;
     panelContent := panelContent s;
     layerControlsOpen := layerControlsOpen s; sources := sources s;
     allFeatures := allFeatures s; searchBoxValue := searchBoxValue s;
     suggestionsList := suggestionsList s;
     suggestionsShown := suggestionsShown s; alerts := alerts s |}.

Definition set_infoPanelOpen (v : bool) (s : State) : State :=
  {| selectedFeature := selectedFeature s; featureStyle := featureStyle s;
     moveendOnce := moveendOnce s; fitRequests := fitRequests s;
     isClickOnFeature := isClickOnFeature s; infoPanelOpen := v;
     panelContent := panelContent s;
     layerControlsOpen := layerControlsOpen s; sources := sources s;
     allFeatures := allFeatures s; searchBoxValue := searchBoxValue s;
     suggestionsList := suggestionsList s;
     suggestionsShown := suggestionsShown s; alerts := alerts s |}.

Definition set_panelContent (v : list Html) (s : State) : State :=
  {| selectedFeature := selectedFeature s; featureStyle := featureStyle s;
     moveendOnce := moveendOnce s; fitRequests := fitRequests s;
     isClickOnFeature := isClickOnFeature s;
     infoPanelOpen := infoPanelOpen s; panelContent := v;
     layerControlsOpen := layerControlsOpen s; sources := sources s;
     allFeatures := allFeatures s; searchBoxValue := searchBoxValue s;
     suggestionsList := suggestionsList s;
     suggestionsShown := suggestionsShown s; alerts := alerts s |}.

Definition set_layerControlsOpen (v : bool) (s : State) : State :=
  {| selectedFeature := selectedFeature s; featureStyle := featureStyle s;
     moveendOnce := moveendOnce s; fitRequests := fitRequests s;
     isClickOnFeature := isClickOnFeature s;
     infoPanelOpen := infoPanelOpen s; panelContent := panelContent s;
     layerControlsOpen := v; sources := sources s;
     allFeatures := allFeatures s; searchBoxValue := searchBoxValue s;
     suggestionsList := suggestionsList s;
     suggestionsShown := suggestionsShown s; alerts := alerts s |}.

Definition set_sources (v : Layer -> VectorSource) (s : State) : State :=
  {| selectedFeature := selectedFeature s; featureStyle := featureStyle s;
     moveendOnce := moveendOnce s; fitRequests := fitRequests s;
     isClickOnFeature := isClickOnFeature s;
     infoPanelOpen := infoPanelOpen s; panelContent := panelContent s;
     layerControlsOpen := layerControlsOpen s; sources := v;
     allFeatures := allFeatures s; searchBoxValue := searchBoxValue s;
     suggestionsList := suggestionsList s;
     suggestionsShown := suggestionsShown s; alerts := alerts s |}.

Definition set_allFeatures (v : list Feature) (s : State) : State :=
  {| selectedFeature := selectedFeature s; featureStyle := featureStyle s;
     moveendOnce := moveendOnce s; fitRequests := fitRequests s;
     isClickOnFeature := isClickOnFeature s;
     infoPanelOpen := infoPanelOpen s; panelContent := panelContent s;
     layerControlsOpen := layerControlsOpen s; sources := sources s;
     allFeatures := v; searchBoxValue := searchBoxValue s;
     suggestionsList := suggestionsList s;
     suggestionsShown := suggestionsShown s; alerts := alerts s |}.

Definition set_searchBoxValue (v : string) (s : State) : State :=
  {| selectedFeature := selectedFeature s; featureStyle := featureStyle s;
     moveendOnce := moveendOnce s; fitRequests := fitRequests s;
     isClickOnFeature := isClickOnFeature s;
     infoPanelOpen := infoPanelOpen s; panelContent := panelContent s;
     layerControlsOpen := layerControlsOpen s; sources := sources s;
     allFeatures := allFeatures s; searchBoxValue := v;
     suggestionsList := suggestionsList s;
     suggestionsShown := suggestionsShown s; alerts := alerts s |}.

Definition set_suggestionsList (v : list SuggestionNode) (s : State) : State :=
  {| selectedFeature := selectedFeature s; featureStyle := featureStyle s;
     moveendOnce := moveendOnce s; fitRequests := fitRequests s;
     isClickOnFeature := isClickOnFeature s;
     infoPanelOpen := infoPanelOpen s; panelContent := panelContent s;
     layerControlsOpen := layerControlsOpen s; sources := sources s;
     allFeatures := allFeatures s; searchBoxValue := searchBoxValue s;
     suggestionsList := v; suggestionsShown := suggestionsShown s;
     alerts := alerts s |}.

Definition set_suggestionsShown (v : bool) (s : State) : State :=
  {| selectedFeature := selectedFeature s; featureStyle := featureStyle s;
     moveendOnce := moveendOnce s; fitRequests := fitRequests s;
     isClickOnFeature := isClickOnFeature s;
     infoPanelOpen := infoPanelOpen s; panelContent := panelContent s;
     layerControlsOpen := layerControlsOpen s; sources := sources s;
     allFeatures := allFeatures s; searchBoxValue := searchBoxValue s;
     suggestionsList := suggestionsList s; suggestionsShown := v;
     alerts := alerts s |}.

Definition set_alerts (v : list string) (s : State) : State :=
  {| selectedFeature := selectedFeature s; featureStyle := featureStyle s;
     moveendOnce := moveendOnce s; fitRequests := fitRequests s;
     isClickOnFeature := isClickOnFeature s;
     infoPanelOpen := infoPanelOpen s; panelContent := panelContent s;
     layerControlsOpen := layerControlsOpen s; sources := sources s;
     allFeatures := allFeatures s; searchBoxValue := searchBoxValue s;
     suggestionsList := suggestionsList s;
     suggestionsShown := suggestionsShown s; alerts := v |}.

(** The outcome of running a handler: it returned, or an uncaught
    [TypeError] ended it in the state reached so far. *)
Inductive Outcome : Type :=
  | Done (s : State)
  | Threw (s : State).

Definition andThen (o : Outcome) (k : State -> Outcome) : Outcome :=
  match o with
  | Done s => k s
  | Threw s => Threw s
  end.

Definition finalState (o : Outcome) : State :=
  match o with
  | Done s => s
  | Threw s => s
  end.

(** [feature.setStyle(undefined)] on the selection, then no selection. *)
Definition resetFeatureStyle (s : State) : State :=
  match selectedFeature s with
  | Some f => set_selectedFeature None (set_featureStyle (delete (fid f) (featureStyle s)) s)
  | None => s
  end.

(** [featureType && featureType.toLowerCase() === literal]. *)
Definition typeIs (featureType : value) (literal : string) : Result bool :=
  if truthy featureType then
    match featureType with
    | VStr t => Ok (String.eqb (toLowerCase t) literal)
    | _ => TypeError
    end
  else Ok false.

(** The max zoom of the map click handler. *)
Definition clickMaxZoom (feature : Feature) : Result Z :=
  let featureType := get feature "type" in
  match typeIs featureType "data center" with
  | TypeError => TypeError
  | Ok true => Ok 15
  | Ok false =>
      match typeIs featureType "punto de aterrizaje" with
      | TypeError => TypeError
      | Ok true => Ok 13
      | Ok false => Ok 16
      end
  end.

(** The max zoom of [performSearch]. *)
Definition searchMaxZoom (feature : Feature) : Result Z :=
  let featureType := get feature "type" in
  match typeIs featureType "punto de aterrizaje" with
  | TypeError => TypeError
  | Ok true => Ok 13
  | Ok false =>
      match typeIs featureType "data center" with
      | TypeError => TypeError
      | Ok true => Ok 15
      | Ok false => Ok 14
      end
  end.

Definition mobileBreakpoint : Z := 768.

Definition fitPadding (vp : Viewport) : list Z :=
  if innerWidth vp <=? mobileBreakpoint then [50; 50; offsetHeight vp + 20; 50]
  else [50; offsetWidth vp + 20; 50; 50].

(** The part both selection paths share: fill and open the info panel,
    close the layer controls. *)
Definition openInfoPanel (feature : Feature) (s : State) : State :=
  let s := set_isClickOnFeature true s in
  let s := set_panelContent (getFormattedFeatureInfo feature) s in
  let s := set_infoPanelOpen true s in
  if layerControlsOpen s then set_layerControlsOpen false s else s.

(** [map.once('moveend', ...)] followed by [view.fit(...)]. *)
Definition fitTo (layer : Layer) (extent : Extent) (vp : Viewport) (zoom : Z)
    (s : State) : State :=
  let s := set_moveendOnce (moveendOnce s ++ [layer]) s in
  set_fitRequests
    (fitRequests s ++
     [{| fitExtent := extent; duration := 700; padding := fitPadding vp;
         maxZoom := zoom |}]) s.

(** [map.on('click', ...)]; [hit] is the last feature and layer that
    [forEachFeatureAtPixel] reported, if any. *)
Definition mapClick (hit : option (Feature * Layer)) (vp : Viewport) (s : State)
    : Outcome :=
  match hit with
  | Some (clickedFeature, clickedLayer) =>
      let s := resetFeatureStyle s in
      let s := set_selectedFeature (Some clickedFeature) s in
      let s := openInfoPanel clickedFeature s in
      match geometry clickedFeature with
      | Some extent =>
          match clickMaxZoom clickedFeature with
          | TypeError => Threw s
          | Ok currentMaxZoom => Done (fitTo clickedLayer extent vp currentMaxZoom s)
          end
      | None => Done s
      end
  | None =>
      let s := set_isClickOnFeature false s in
      let s := if infoPanelOpen s then set_infoPanelOpen false s else s in
      Done (resetFeatureStyle s)
  end.

(** [Array.isArray(originalStyle) ? originalStyle : [originalStyle]]. *)
Definition asArray (originalStyle : StyleLike Style) : list Style :=
  match originalStyle with
  | OneStyle st => [st]
  | StyleArray sts => sts
  end.

(** One deferred continuation, registered with the layer it captured. *)
Definition applyHighlight (layer : Layer) (s : State) : State :=
  match selectedFeature s with
  | Some f =>
      let combinedStyles := glowStyle :: asArray (getStyle layer f) in
      set_featureStyle (<[fid f := combinedStyles]> (featureStyle s)) s
  | None => s
  end.

(** The map fires [moveend]: every pending once-listener runs, in the
    order of registration, and is gone. *)
Definition moveEnd (s : State) : State :=
  fold_left (fun s layer => applyHighlight layer s) (moveendOnce s)
            (set_moveendOnce [] s).

Definition emptyQueryAlert : string := "Por favor, ingresa un término de búsqueda.".
Definition noMatchesText : string := "No matches were found.".

Definition performSearch (searchTerm : string) (vp : Viewport) (s : State) : Outcome :=
  if String.eqb searchTerm "" then Done (set_alerts (alerts s ++ [emptyQueryAlert]) s)
  else
    match scanLayers searchTerm (fun l => getFeatures (sources s l)) mapLayers None with
    | TypeError => Threw s
    | Ok (Some (foundFeature, foundLayer)) =>
        let s := resetFeatureStyle s in
        let s := set_selectedFeature (Some foundFeature) s in
        let s := openInfoPanel foundFeature s in
        match geometry foundFeature with
        | Some extent =>
            match searchMaxZoom foundFeature with
            | TypeError => Threw s
            | Ok zoom => Done (fitTo foundLayer extent vp zoom s)
            end
        | None => Done s
        end
    | Ok None =>
        let s := set_suggestionsList (suggestionsList s ++ [NoResultsMessage noMatchesText]) s in
        Done (set_suggestionsShown true s)
    end.

Definition searchButtonClick (vp : Viewport) (s : State) : Outcome :=
  andThen (performSearch (trim (searchBoxValue s)) vp s)
          (fun s => Done (set_suggestionsShown false s)).

Definition suggestionItem (feature : Feature) : SuggestionNode :=
  SuggestionItem feature
    (or_else (get feature "name") (get feature "nombre"))
    (or_else (get feature "type") (VStr "")).

Definition noResultsFor (searchTerm : string) : string :=
  "No se encontraron resultados para " ++ String "034"%char searchTerm
  ++ String "034"%char ".".

(** The keyup handler of the search box. *)
Definition searchBoxKeyUp (s : State) : Outcome :=
  let searchTerm := toLowerCase (trim (searchBoxValue s)) in
  let s := set_suggestionsList [] s in
  if (0 <? Z.of_nat (String.length searchTerm)) then
    match filterMatching searchTerm (allFeatures s) with
    | TypeError => Threw s
    | Ok matchingFeatures =>
        if (0 <? Z.of_nat (length matchingFeatures)) then
          let s := set_suggestionsList (map suggestionItem (dedupe matchingFeatures ∅)) s in
          Done (set_suggestionsShown true s)
        else
          let s := set_suggestionsList [NoResultsMessage (noResultsFor searchTerm)] s in
          Done (set_suggestionsShown true s)
    end
  else Done (set_suggestionsShown false s).

(** What assigning [v] to [searchBox.value] stores: the value as a string,
    with [null] as the empty string. *)
Definition toDOMString (v : value) : string :=
  match v with
  | VStr t => t
  | VUndefined => "undefined"
  | VNull => ""
  | VNum n => pretty n
  | VObj => "[object Object]"
  end.

(** The click listener of the [i]-th child of the suggestions element;
    the "no results" message has none. *)
Definition suggestionClick (i : nat) (vp : Viewport) (s : State) : Outcome :=
  match suggestionsList s !! i with
  | Some (SuggestionItem feature _ _) =>
      let s := set_searchBoxValue
                 (toDOMString (or_else (get feature "name") (get feature "nombre"))) s in
      andThen (performSearch (trim (searchBoxValue s)) vp s)
              (fun s => Done (set_suggestionsShown false s))
  | _ => Done s
  end.

(** The click listener of the search box. *)
Definition searchBoxClick (s : State) : State :=
  if (0 <? Z.of_nat (String.length (searchBoxValue s))) then set_searchBoxValue "" s
  else s.

Definition closePanelClick (s : State) : State :=
  resetFeatureStyle (set_infoPanelOpen false s).

Definition toggleLayerControlsClick (s : State) : State :=
  let s := set_layerControlsOpen (negb (layerControlsOpen s)) s in
  if infoPanelOpen s then set_infoPanelOpen false s else s.

(** Where a click that reaches [document] landed. *)
Record ClickTarget : Type := {
  inLayerControls : bool;
  inToggleButton : bool;
  inInfoPanel : bool;
  inSearchContainer : bool
}.

(** The two click listeners of [document], in the order they were added. *)
Definition documentClick (target : ClickTarget) (s : State) : State :=
  let s :=
    if isClickOnFeature s then set_isClickOnFeature false s
    else
      let s :=
        if layerControlsOpen s && negb (inLayerControls target)
           && negb (inToggleButton target)
        then set_layerControlsOpen false s else s in
      if infoPanelOpen s && negb (inInfoPanel target)
      then resetFeatureStyle (set_infoPanelOpen false s) else s in
  if negb (inSearchContainer target) then set_suggestionsShown false s else s.

Definition isReady (st : SourceState) : bool :=
  match st with
  | ready => true
  | _ => false
  end.

(** The body shared by the ['change'] listener of a source and the direct
    check of [initializeSearchFeatures]:
    [if (source.getState() === 'ready') allFeatures.push(...source.getFeatures())]. *)
Definition pushIfReady (layer : Layer) (s : State) : State :=
  if isReady (getState (sources s layer))
  then set_allFeatures (allFeatures s ++ getFeatures (sources s layer)) s
  else s.

Definition layersToSearch : list Layer :=
  [pointLayer; dataCenterLayer; landCableLayer; cableLayer].

(** [initializeSearchFeatures()]: each layer of [layersToSearch] gets its
    ['change'] listener (every vector layer is in the list, so [sourceChange]
    below runs it for any layer) and is looked at once right away. *)
Definition initializeSearchFeatures (s : State) : State :=
  fold_left (fun s layer => pushIfReady layer s) layersToSearch s.

(** The source of [layer] becomes [src] and fires ['change']. *)
Definition sourceChange (layer : Layer) (src : VectorSource) (s : State) : State :=
  let s := set_sources (fun l => if decide (l = layer) then src else sources s l) s in
  pushIfReady layer s.

(** The state after the script has run, given the sources as the map
    library created them. *)
Definition initialState (srcs : Layer -> VectorSource) : State :=
  initializeSearchFeatures
    {| selectedFeature := None; featureStyle := ∅; moveendOnce := [];
       fitRequests := []; isClickOnFeature := false; infoPanelOpen := false;
       panelContent := []; layerControlsOpen := false; sources := srcs;
       allFeatures := []; searchBoxValue := ""; suggestionsList := [];
       suggestionsShown := false; alerts := [] |}.

(** What can happen to the page. A DOM click that bubbles is the event of
    the element followed by [DocumentClick]. *)
Inductive Event : Type :=
  | MapClick (hit : option (Feature * Layer)) (vp : Viewport)
  | MoveEnd
  | ClosePanelClick
  | ToggleLayerControlsClick
  | DocumentClick (target : ClickTarget)
  | SourceChange (layer : Layer) (src : VectorSource)
  | SearchBoxInput (text : string)
  | SearchBoxKeyUp
  | SearchBoxClick
  | SearchButtonClick (vp : Viewport)
  | SuggestionClick (i : nat) (vp : Viewport).

Definition handle (e : Event) (s : State) : Outcome :=
  match e with
  | MapClick hit vp => mapClick hit vp s
  | MoveEnd => Done (moveEnd s)
  | ClosePanelClick => Done (closePanelClick s)
  | ToggleLayerControlsClick => Done (toggleLayerControlsClick s)
  | DocumentClick target => Done (documentClick target s)
  | SourceChange layer src => Done (sourceChange layer src s)
  | SearchBoxInput text => Done (set_searchBoxValue text s)
  | SearchBoxKeyUp => searchBoxKeyUp s
  | SearchBoxClick => Done (searchBoxClick s)
  | SearchButtonClick vp => searchButtonClick vp s
  | SuggestionClick i vp => suggestionClick i vp s
  end.

Definition step (s : State) (e : Event) : State := finalState (handle e s).

Definition run (s : State) (es : list Event) : State := fold_left step es s.

(** A feature carries the highlight when its style override is set. *)
Definition highlighted (s : State) (f : Feature) : Prop :=
  is_Some (featureStyle s !! fid f).

End Handlers.
End App.

(** * Properties *)

(** ** Strings *)

Module StringFacts.


Lemma append_cons (c : ascii) (s t : string) : String c s ++ t = String c (s ++ t).
Proof. reflexivity. Qed.

Lemma startsWith_spec (s p : string) :
  startsWith s p = true <-> exists post, s = p ++ post.
Proof.
  revert s; induction p as [|a p IH]; intros s.
  - split; [intros _; exists s; reflexivity | destruct s; reflexivity].
  - destruct s as [|b s]; simpl.
    + split; [discriminate | intros [post Hp]; discriminate].
    + destruct (Ascii.eqb_spec a b) as [->|Hab].
      * rewrite IH. split; intros [post Hp]; exists post.
        -- rewrite append_cons; congruence.
        -- rewrite append_cons in Hp; congruence.
      * split; [discriminate | intros [post Hp]; rewrite append_cons in Hp; congruence].
Qed.

Lemma includes_spec (s t : string) :
  includes s t = true <-> exists pre post, s = pre ++ t ++ post.
Proof.
  induction s as [|c s IH].
  - cbn [includes]. rewrite orb_false_r, startsWith_spec. split.
    + intros [post Hp]. exists "", post. exact Hp.
    + intros [pre [post Hp]]. destruct pre; [|discriminate].
      exists post. exact Hp.
  - cbn [includes]. rewrite orb_true_iff, startsWith_spec, IH. split.
    + intros [[post Hp]|[pre [post Hp]]].
      * exists "", post. exact Hp.
      * exists (String c pre), post. rewrite append_cons. congruence.
    + intros [pre [post Hp]]. destruct pre as [|c' pre].
      * left. exists post. exact Hp.
      * right. exists pre, post. rewrite append_cons in Hp. congruence.
Qed.

Lemma eqb_empty_length (s : string) :
  String.eqb s "" = negb (0 <? Z.of_nat (String.length s)).
Proof. destruct s; reflexivity. Qed.

Section TrimFacts.
Context `{Builtins}.

Lemma trimStart_whitespaceOnly (s : string) :
  whitespaceOnly s = true -> trimStart s = "".
Proof.
  induction s as [|c s IH]; simpl; [reflexivity|].
  intros [Hc Hs]%andb_true_iff. rewrite Hc. auto.
Qed.

Lemma trim_whitespaceOnly (s : string) :
  whitespaceOnly s = true -> trim s = "".
Proof.
  intros Hs. unfold trim. rewrite trimStart_whitespaceOnly by assumption.
  reflexivity.
Qed.

Lemma trimStart_empty_inv (s : string) :
  trimStart s = "" -> whitespaceOnly s = true.
Proof.
  induction s as [|c s IH]; simpl; [reflexivity|].
  destruct (isWhiteSpace c); [auto | discriminate].
Qed.

Lemma trimEnd_empty_inv (s : string) :
  trimEnd s = "" -> whitespaceOnly s = true.
Proof.
  induction s as [|c s IH]; simpl; [reflexivity|].
  destruct (trimEnd s) eqn:E; [|discriminate].
  destruct (isWhiteSpace c); [auto | discriminate].
Qed.

Lemma trimStart_suffix (s : string) :
  whitespaceOnly (trimStart s) = true -> whitespaceOnly s = true.
Proof.
  induction s as [|c s IH]; simpl; [reflexivity|].
  destruct (isWhiteSpace c) eqn:Ec; [auto|].
  simpl. rewrite Ec. discriminate.
Qed.

(** [trim] answers the empty string exactly on the texts made of white
    space only. *)
Lemma trim_empty_iff (s : string) :
  trim s = "" <-> whitespaceOnly s = true.
Proof.
  split; [|apply trim_whitespaceOnly].
  unfold trim. intros Ht. apply trimStart_suffix, trimEnd_empty_inv, Ht.
Qed.

End TrimFacts.
End StringFacts.

(** ** The matching predicates *)

Module SearchProps.
Import Search StringFacts.

Lemma orR_assoc (a b c : Result bool) : orR (orR a b) c = orR a (orR b c).
Proof. destruct a as [[]|]; reflexivity. Qed.

Lemma orR_false_r (a : Result bool) : orR a (Ok false) = a.
Proof. destruct a as [[]|]; reflexivity. Qed.

(** A field that [toLowerCase] can be called on whenever it is truthy: a
    string, or a falsy value. *)
Definition textual (v : value) : bool :=
  match v with
  | VUndefined | VNull | VStr _ => true
  | VNum n => n =? 0
  | VObj => false
  end.

Section Matching.
Context `{Builtins}.

(** [q] occurs in [s] once both are put in lower case. *)
Definition containsCI (s q : string) : Prop :=
  exists pre post, toLowerCase s = pre ++ toLowerCase q ++ post.

(** The field is there (a non-empty string) and [q] occurs in it. *)
Definition fieldContains (q : string) (v : value) : Prop :=
  exists s, v = VStr s /\ s <> "" /\ containsCI s q.

(** The fields [performSearch] looks at, and the fields the keyup handler
    looks at, each in the order it is tested. *)
Definition searchedFields (f : Feature) : list value :=
  [or_else (get f "name") (get f "nombre");
   or_else (get f "location") (get f "ubicación");
   or_else (get f "address") (get f "Dirección");
   get f "comuna";
   get f "Empresa";
   or_else (get f "operator") (get f "operador")].

Definition suggestedFields (f : Feature) : list value :=
  [or_else (get f "name") (get f "nombre");
   get f "type";
   or_else (get f "location") (get f "ubicación");
   or_else (get f "address") (get f "Dirección");
   get f "comuna";
   get f "Empresa";
   or_else (get f "operator") (get f "operador")].

(** Following the specification's words: the seven fields of its matching
    predicate, with [empresa] as it spells it. *)
Definition specFields (f : Feature) : list value :=
  [or_else (get f "name") (get f "nombre");
   get f "type";
   or_else (get f "location") (get f "ubicación");
   or_else (get f "address") (get f "Dirección");
   get f "comuna";
   get f "empresa";
   or_else (get f "operator") (get f "operador")].

Definition specMatches (q : string) (f : Feature) : Prop :=
  Exists (fieldContains q) (specFields f).

Definition anyField (fields : list value) (term : string) : Result bool :=
  fold_right (fun v r => orR (fieldIncludes v term) r) (Ok false) fields.

Lemma performSearchMatches_anyField (f : Feature) (q : string) :
  performSearchMatches f q = anyField (searchedFields f) (toLowerCase q).
Proof.
  unfold performSearchMatches, anyField, searchedFields. cbn [fold_right].
  rewrite !orR_assoc, orR_false_r. reflexivity.
Qed.

Lemma suggestMatches_anyField (f : Feature) (term : string) :
  suggestMatches f term = anyField (suggestedFields f) term.
Proof.
  unfold suggestMatches, anyField, suggestedFields. cbn [fold_right].
  rewrite !orR_assoc, orR_false_r. reflexivity.
Qed.

Lemma fieldIncludes_true (v : value) (q : string) :
  fieldIncludes v (toLowerCase q) = Ok true <-> fieldContains q v.
Proof.
  unfold fieldIncludes, fieldContains, containsCI.
  destruct v as [| |n|s|]; cbn [truthy].
  - split; [discriminate | intros (s & Hs & _); discriminate].
  - split; [discriminate | intros (s & Hs & _); discriminate].
  - split; [destruct (negb (n =? 0)); discriminate | intros (s & Hs & _); discriminate].
  - destruct (String.eqb_spec s "") as [->|Hne]; cbn [negb].
    + split; [discriminate | intros (s & Hs & Hne & _); congruence].
    + split.
      * intros Hinc. exists s. split; [reflexivity|]. split; [assumption|].
        apply includes_spec. congruence.
      * intros (s' & Hs & _ & Hc). injection Hs as <-.
        f_equal. apply includes_spec. exact Hc.
  - split; [discriminate | intros (s & Hs & _); discriminate].
Qed.

Lemma fieldIncludes_textual (v : value) (term : string) :
  textual v = true -> exists b, fieldIncludes v term = Ok b.
Proof.
  unfold fieldIncludes. destruct v as [| |n|s|]; cbn [truthy textual]; intros Hv.
  - eauto.
  - eauto.
  - rewrite Hv. eauto.
  - destruct (negb (String.eqb s "")); eauto.
  - discriminate.
Qed.

Lemma anyField_true (fields : list value) (q : string) :
  anyField fields (toLowerCase q) = Ok true -> Exists (fieldContains q) fields.
Proof.
  induction fields as [|v fields IH]; cbn [anyField fold_right]; [discriminate|].
  destruct (fieldIncludes v (toLowerCase q)) as [[]|] eqn:E; cbn [orR].
  - intros _. left. apply fieldIncludes_true. exact E.
  - intros Hr. right. apply IH. exact Hr.
  - discriminate.
Qed.

Lemma anyField_textual (fields : list value) (q : string) :
  Forall (fun v => textual v = true) fields ->
  (Exists (fieldContains q) fields -> anyField fields (toLowerCase q) = Ok true) /\
  (~ Exists (fieldContains q) fields -> anyField fields (toLowerCase q) = Ok false).
Proof.
  induction 1 as [|v fields Hv _ [IHt IHf]]; cbn [anyField fold_right].
  - split; [intros HE; inversion HE | reflexivity].
  - destruct (fieldIncludes_textual v (toLowerCase q) Hv) as [b Hb].
    fold (anyField fields (toLowerCase q)). rewrite Hb. destruct b; cbn [orR].
    + split; [reflexivity|]. intros Hn. exfalso. apply Hn. left.
      apply fieldIncludes_true. exact Hb.
    + split.
      * intros HE. inversion HE as [? ? Hc|? ? Hc]; subst.
        -- apply fieldIncludes_true in Hc. congruence.
        -- auto.
      * intros Hn. apply IHf. intros HE. apply Hn. right. exact HE.
Qed.

Lemma anyField_false (fields : list value) (q : string) :
  anyField fields (toLowerCase q) = Ok false -> ~ Exists (fieldContains q) fields.
Proof.
  induction fields as [|v fields IH]; cbn [anyField fold_right].
  - intros _ HE. inversion HE.
  - destruct (fieldIncludes v (toLowerCase q)) as [[]|] eqn:E; cbn [orR];
      [discriminate| |discriminate].
    intros Hr HE. inversion HE as [? ? Hc|? ? Hc]; subst.
    + apply fieldIncludes_true in Hc. congruence.
    + exact (IH Hr Hc).
Qed.

Lemma searchedFields_textual (f : Feature) :
  Forall (fun v => textual v = true) (suggestedFields f) ->
  Forall (fun v => textual v = true) (searchedFields f).
Proof.
  unfold suggestedFields, searchedFields. intros Hall.
  repeat match goal with
         | Hx : Forall _ (_ :: _) |- _ => inversion Hx; subst; clear Hx
         end.
  repeat constructor; assumption.
Qed.

End Matching.
End SearchProps.

(** ** The scan of [performSearch] *)

Module ScanProps.
Import Search SearchProps.

Section Scan.
Context `{Builtins}.

(** The features [performSearch] visits, each with its layer, in the order
    of the visit. *)
Definition tagged (l : Layer) (features : list Feature) : list (Feature * Layer) :=
  map (fun f => (f, l)) features.

Definition scanOrder (getFeatures : Layer -> list Feature) : list (Feature * Layer) :=
  (tagged cableLayer (getFeatures cableLayer)
   ++ tagged landCableLayer (getFeatures landCableLayer)
   ++ tagged pointLayer (getFeatures pointLayer)
   ++ tagged dataCenterLayer (getFeatures dataCenterLayer))%list.

(** The scan over an explicit sequence of visits. *)
Fixpoint scanPairs (searchTerm : string) (visits : list (Feature * Layer))
    (found : option (Feature * Layer)) : Result (option (Feature * Layer)) :=
  match visits with
  | [] => Ok found
  | (feature, layer) :: rest =>
      match performSearchMatches feature searchTerm with
      | TypeError => TypeError
      | Ok true => scanPairs searchTerm rest (Some (feature, layer))
      | Ok false => scanPairs searchTerm rest found
      end
  end.

Lemma scanFeatures_pairs (t : string) (l : Layer) (fs : list Feature) found :
  scanFeatures t l fs found = scanPairs t (tagged l fs) found.
Proof.
  revert found; induction fs as [|f fs IH]; intros found; cbn; [reflexivity|].
  destruct (performSearchMatches f t) as [[]|]; auto.
Qed.

Lemma scanPairs_app (t : string) (a b : list (Feature * Layer)) found :
  scanPairs t (a ++ b) found =
  match scanPairs t a found with
  | Ok found' => scanPairs t b found'
  | TypeError => TypeError
  end.
Proof.
  revert found; induction a as [|[f l] a IH]; intros found; cbn; [reflexivity|].
  destruct (performSearchMatches f t) as [[]|]; auto.
Qed.

Lemma scanLayers_pairs (t : string) (getFeatures : Layer -> list Feature) :
  scanLayers t getFeatures mapLayers None = scanPairs t (scanOrder getFeatures) None.
Proof.
  unfold mapLayers, scanOrder. cbn [scanLayers].
  do 3 (rewrite scanFeatures_pairs, scanPairs_app;
        match goal with
        | |- context [scanPairs t (tagged ?l ?fs) ?found] =>
            destruct (scanPairs t (tagged l fs) found); [|reflexivity]
        end).
  rewrite scanFeatures_pairs.
  match goal with
  | |- context [scanPairs t ?a ?found] => destruct (scanPairs t a found)
  end; reflexivity.
Qed.

Lemma scanPairs_no_match (t : string) (visits : list (Feature * Layer)) found :
  Forall (fun p => performSearchMatches (fst p) t = Ok false) visits ->
  scanPairs t visits found = Ok found.
Proof.
  induction 1 as [|[f l] visits Hf _ IH]; cbn; [reflexivity|].
  cbn in Hf. rewrite Hf. exact IH.
Qed.

Lemma scanPairs_defined (t : string) (visits : list (Feature * Layer)) found :
  Forall (fun p => exists b, performSearchMatches (fst p) t = Ok b) visits ->
  exists r, scanPairs t visits found = Ok r.
Proof.
  intros Hall; revert found.
  induction Hall as [|[f l] visits [b Hb] _ IH]; intros found; cbn; [eauto|].
  cbn in Hb. rewrite Hb. destruct b; auto.
Qed.

Lemma scanPairs_last (t : string) (pre post : list (Feature * Layer))
    (f : Feature) (l : Layer) found :
  Forall (fun p => exists b, performSearchMatches (fst p) t = Ok b) pre ->
  performSearchMatches f t = Ok true ->
  Forall (fun p => performSearchMatches (fst p) t = Ok false) post ->
  scanPairs t (pre ++ (f, l) :: post) found = Ok (Some (f, l)).
Proof.
  intros Hpre Hf Hpost. rewrite scanPairs_app.
  destruct (scanPairs_defined t pre found Hpre) as [r ->].
  cbn. rewrite Hf. apply scanPairs_no_match. exact Hpost.
Qed.

(** Following the specification's words: the last feature of a list (the
    Feature Store) that [performSearch]'s test accepts. *)
Fixpoint lastMatchIn (searchTerm : string) (store : list Feature)
    (found : option Feature) : Result (option Feature) :=
  match store with
  | [] => Ok found
  | feature :: rest =>
      match performSearchMatches feature searchTerm with
      | TypeError => TypeError
      | Ok true => lastMatchIn searchTerm rest (Some feature)
      | Ok false => lastMatchIn searchTerm rest found
      end
  end.

End Scan.
End ScanProps.

(** ** Sample data *)

Module Examples.
Import App.

Definition sampleRendering : Rendering := {|
  Style := string;
  glowStyle := "glow";
  getStyle := fun l _ =>
    match l with
    | cableLayer => StyleArray ["hit area"; "cable stroke"]
    | landCableLayer => OneStyle "land cable stroke"
    | pointLayer => OneStyle "point"
    | dataCenterLayer => StyleArray ["data center"]
    end
|}.

Definition valparaiso : Feature := {|
  fid := 1;
  properties := [("name", VStr "Valparaíso"); ("type", VStr "Punto de aterrizaje");
                 ("comuna", VStr "Valparaíso")];
  geometry := Some (0, 0, 1, 1)
|}.

Definition dcSantiago : Feature := {|
  fid := 2;
  properties := [("name", VStr "DC Santiago"); ("type", VStr "Data Center");
                 ("Empresa", VStr "Entel"); ("id", VNum 7)];
  geometry := Some (2, 2, 3, 3)
|}.

Definition cableA : Feature := {|
  fid := 3;
  properties := [("name", VStr "Cable A"); ("lineDash", VStr "4,8");
                 ("color", VStr "red")];
  geometry := Some (0, 0, 9, 9)
|}.

Definition landCableA : Feature := {|
  fid := 4;
  properties := [("name", VStr "Cable A"); ("operador", VStr "Entel")];
  geometry := Some (4, 4, 6, 6)
|}.

(** A point named like the cables. *)
Definition cableStation : Feature := {|
  fid := 5;
  properties := [("name", VStr "Estación Cable A")];
  geometry := Some (5, 5, 5, 5)
|}.

(** A feature that only has a category. *)
Definition unnamedDataCenter : Feature := {|
  fid := 6;
  properties := [("type", VStr "Data Center")];
  geometry := None
|}.

(** A feature whose company is under the key [empresa]. *)
Definition lowerEmpresa : Feature := {|
  fid := 7;
  properties := [("nombre", VStr "Nodo Sur"); ("empresa", VStr "Entel")];
  geometry := None
|}.

Definition desktop : Viewport :=
  {| innerWidth := 1280; offsetHeight := 600; offsetWidth := 350 |}.

Definition emptySource : VectorSource := {| getState := ready; getFeatures := [] |}.

Definition loaded (features : list Feature) : VectorSource :=
  {| getState := ready; getFeatures := features |}.

End Examples.

(** ** Selection and highlight *)

Module HighlightProps.
Import Formatter Search App.

Section Highlight.
Context `{Builtins} `{Rendering}.

(** The style overrides once [resetFeatureStyle] has run. *)
Definition clearedStyle (s : State) : gmap nat (list Style) :=
  match selectedFeature s with
  | Some f => delete (fid f) (featureStyle s)
  | None => featureStyle s
  end.

(** Every style override sits on the selected feature. *)
Definition onlySelectionStyled (s : State) : Prop :=
  forall i, is_Some (featureStyle s !! i) ->
            exists g, selectedFeature s = Some g /\ fid g = i.

Lemma resetFeatureStyle_selected (s : State) :
  selectedFeature (resetFeatureStyle s) = None.
Proof. unfold resetFeatureStyle. destruct (selectedFeature s) eqn:E; auto. Qed.

Lemma resetFeatureStyle_style (s : State) :
  featureStyle (resetFeatureStyle s) = clearedStyle s.
Proof.
  unfold resetFeatureStyle, clearedStyle. destruct (selectedFeature s); reflexivity.
Qed.


Lemma clearedStyle_empty (s : State) (i : nat) :
  onlySelectionStyled s -> clearedStyle s !! i = None.
Proof.
  intros Hinv. unfold clearedStyle.
  destruct (selectedFeature s) as [f|] eqn:Esel.
  - destruct (decide (i = fid f)) as [->|Hne].
    + apply lookup_delete_eq.
    + rewrite lookup_delete_ne by congruence.
      destruct (featureStyle s !! i) eqn:Est; [|reflexivity].
      destruct (Hinv i) as (g & Hg & Hi); [eauto|]. congruence.
  - destruct (featureStyle s !! i) eqn:Est; [|reflexivity].
    destruct (Hinv i) as (g & Hg & Hi); [eauto|]. congruence.
Qed.

(** What a handler can do to the selection and the style overrides. *)
Inductive SelectionEffect (s s' : State) : Prop :=
  | Untouched :
      selectedFeature s' = selectedFeature s ->
      featureStyle s' = featureStyle s -> SelectionEffect s s'
  | Cleared :
      selectedFeature s' = None ->
      featureStyle s' = clearedStyle s -> SelectionEffect s s'
  | Reselected (f : Feature) :
      selectedFeature s' = Some f ->
      featureStyle s' = clearedStyle s -> SelectionEffect s s'.

Lemma openInfoPanel_selected (f : Feature) (s : State) :
  selectedFeature (openInfoPanel f s) = selectedFeature s.
Proof. unfold openInfoPanel. cbn. destruct (layerControlsOpen s); reflexivity. Qed.

Lemma openInfoPanel_style (f : Feature) (s : State) :
  featureStyle (openInfoPanel f s) = featureStyle s.
Proof. unfold openInfoPanel. cbn. destruct (layerControlsOpen s); reflexivity. Qed.

(** The state in which a selection handler ends once it has stored the
    feature: the info panel is open, and the camera fit may have been
    requested. *)
Lemma select_effect (f : Feature) (s s' : State) :
  selectedFeature s' = selectedFeature (openInfoPanel f (set_selectedFeature (Some f) (resetFeatureStyle s))) ->
  featureStyle s' = featureStyle (openInfoPanel f (set_selectedFeature (Some f) (resetFeatureStyle s))) ->
  SelectionEffect s s'.
Proof.
  rewrite openInfoPanel_selected, openInfoPanel_style. cbn.
  rewrite resetFeatureStyle_style. intros Hsel Hsty.
  exact (Reselected s s' f Hsel Hsty).
Qed.

Lemma performSearch_effect (q : string) (vp : Viewport) (s : State) :
  SelectionEffect s (finalState (performSearch q vp s)).
Proof.
  unfold performSearch.
  destruct (String.eqb q ""); [apply Untouched; reflexivity|].
  destruct (scanLayers _ _ _ _) as [[[f l]|]|];
    [|apply Untouched; reflexivity|apply Untouched; reflexivity].
  destruct (geometry f); [destruct (searchMaxZoom f)|];
    apply (select_effect f); reflexivity.
Qed.

Lemma effect_after (s s' s'' : State) :
  selectedFeature s'' = selectedFeature s' ->
  featureStyle s'' = featureStyle s' ->
  SelectionEffect s s' -> SelectionEffect s s''.
Proof.
  intros Hsel Hsty [Ha Hb|Ha Hb|f Ha Hb].
  - apply Untouched; congruence.
  - apply Cleared; congruence.
  - apply (Reselected s s'' f); congruence.
Qed.

Lemma effect_before (s0 s s' : State) :
  selectedFeature s0 = selectedFeature s ->
  featureStyle s0 = featureStyle s ->
  SelectionEffect s0 s' -> SelectionEffect s s'.
Proof.
  intros Hsel Hsty Heff.
  assert (Hc : clearedStyle s0 = clearedStyle s)
    by (unfold clearedStyle; rewrite Hsel, Hsty; reflexivity).
  destruct Heff as [Ha Hb|Ha Hb|f Ha Hb].
  - apply Untouched; congruence.
  - apply Cleared; congruence.
  - apply (Reselected s s' f); congruence.
Qed.

Lemma reset_effect (s0 s : State) :
  selectedFeature s0 = selectedFeature s ->
  featureStyle s0 = featureStyle s ->
  SelectionEffect s (resetFeatureStyle s0).
Proof.
  intros Hsel Hsty. apply (effect_before s0); [assumption..|].
  apply Cleared; [apply resetFeatureStyle_selected | apply resetFeatureStyle_style].
Qed.

Lemma hide_suggestions_effect (s : State) (o : Outcome) :
  SelectionEffect s (finalState o) ->
  SelectionEffect s
    (finalState (andThen o (fun s => Done (set_suggestionsShown false s)))).
Proof.
  destruct o as [s'|s']; cbn; intros Heff; [|exact Heff].
  apply (effect_after s s'); [reflexivity..|exact Heff].
Qed.

Lemma mapClick_effect (hit : option (Feature * Layer)) (vp : Viewport) (s : State) :
  SelectionEffect s (finalState (mapClick hit vp s)).
Proof.
  unfold mapClick. destruct hit as [[f l]|].
  - destruct (geometry f); [destruct (clickMaxZoom f)|];
      apply (select_effect f); reflexivity.
  - cbn [finalState]. destruct (infoPanelOpen _); apply reset_effect; reflexivity.
Qed.

Lemma documentClick_effect (target : ClickTarget) (s : State) :
  SelectionEffect s (documentClick target s).
Proof.
  unfold documentClick.
  set (hide := fun s' : State =>
                 if negb (inSearchContainer target)
                 then set_suggestionsShown false s' else s').
  assert (Hhide : forall s', SelectionEffect s s' -> SelectionEffect s (hide s')).
  { intros s' Heff. unfold hide. destruct (negb _); [|exact Heff].
    apply (effect_after s s'); [reflexivity..|exact Heff]. }
  apply Hhide.
  destruct (isClickOnFeature s); [apply Untouched; reflexivity|].
  destruct (layerControlsOpen s && _ && _);
    (destruct (infoPanelOpen _ && _);
     [apply reset_effect; reflexivity | apply Untouched; reflexivity]).
Qed.

(** Apart from [moveend], a handler leaves the selection and the style
    overrides alone, or clears the overrides of the selection and then
    stores no selection or a new one. *)
Lemma step_effect (s : State) (e : Event) :
  e <> MoveEnd -> SelectionEffect s (step s e).
Proof.
  intros Hne. unfold step. destruct e; cbn [handle finalState].
  - apply mapClick_effect.
  - congruence.
  - unfold closePanelClick. apply reset_effect; reflexivity.
  - unfold toggleLayerControlsClick. cbn.
    destruct (infoPanelOpen s); apply Untouched; reflexivity.
  - apply documentClick_effect.
  - unfold sourceChange, pushIfReady. cbn.
    destruct (decide (layer = layer)); [|congruence].
    destruct (isReady _); apply Untouched; reflexivity.
  - apply Untouched; reflexivity.
  - unfold searchBoxKeyUp. cbn.
    destruct (0 <? _); [|apply Untouched; reflexivity].
    destruct (filterMatching _ _); [|apply Untouched; reflexivity].
    destruct (0 <? _); apply Untouched; reflexivity.
  - unfold searchBoxClick. destruct (0 <? _); apply Untouched; reflexivity.
  - unfold searchButtonClick. apply hide_suggestions_effect, performSearch_effect.
  - unfold suggestionClick.
    destruct (suggestionsList s !! i) as [[f nameText typeText|text]|];
      [|apply Untouched; reflexivity..].
    apply hide_suggestions_effect.
    apply (effect_before (set_searchBoxValue
             (toDOMString (or_else (get f "name") (get f "nombre"))) s));
      [reflexivity..|].
    apply performSearch_effect.
Qed.

(** *** The deferred continuation *)

Definition combinedStyles (layer : Layer) (f : Feature) : list Style :=
  glowStyle :: asArray (getStyle layer f).

Lemma applyHighlight_selected (layer : Layer) (s : State) :
  selectedFeature (applyHighlight layer s) = selectedFeature s.
Proof. unfold applyHighlight. destruct (selectedFeature s) eqn:E; auto. Qed.


Lemma applyHighlight_style (layer : Layer) (s : State) (g : Feature) :
  selectedFeature s = Some g ->
  featureStyle (applyHighlight layer s) =
  <[fid g := combinedStyles layer g]> (featureStyle s).
Proof. unfold applyHighlight. intros ->. reflexivity. Qed.

Definition fire (layers : list Layer) (s : State) : State :=
  fold_left (fun s layer => applyHighlight layer s) layers s.

Lemma fire_selected (layers : list Layer) (s : State) :
  selectedFeature (fire layers s) = selectedFeature s.
Proof.
  revert s; induction layers as [|l layers IH]; intros s; cbn; [reflexivity|].
  unfold fire in IH. rewrite IH. apply applyHighlight_selected.
Qed.




Lemma moveEnd_fire (s : State) :
  moveEnd s = fire (moveendOnce s) (set_moveendOnce [] s).
Proof. reflexivity. Qed.

Lemma applyHighlight_invariant (layer : Layer) (s : State) :
  onlySelectionStyled s -> onlySelectionStyled (applyHighlight layer s).
Proof.
  intros Hinv i Hi. rewrite applyHighlight_selected.
  destruct (selectedFeature s) as [g|] eqn:Esel.
  - rewrite (applyHighlight_style layer s g Esel) in Hi.
    destruct (decide (fid g = i)) as [Heq|Hne]; [eauto|].
    rewrite lookup_insert_ne in Hi by assumption.
    destruct (Hinv i Hi) as (g' & Hg' & Hfid). rewrite Esel in Hg'. eauto.
  - unfold applyHighlight in Hi. rewrite Esel in Hi.
    destruct (Hinv i Hi) as (g' & Hg' & _). rewrite Esel in Hg'. discriminate.
Qed.

Lemma fire_invariant (layers : list Layer) (s : State) :
  onlySelectionStyled s -> onlySelectionStyled (fire layers s).
Proof.
  revert s; induction layers as [|l layers IH]; intros s Hinv; cbn; [exact Hinv|].
  apply IH, applyHighlight_invariant, Hinv.
Qed.

Lemma moveEnd_or_not (e : Event) : e = MoveEnd \/ e <> MoveEnd.
Proof. destruct e; solve [left; reflexivity | right; discriminate]. Qed.

Lemma step_invariant (s : State) (e : Event) :
  onlySelectionStyled s -> onlySelectionStyled (step s e).
Proof.
  intros Hinv. destruct (moveEnd_or_not e) as [->|Hne].
  - unfold step. cbn [handle finalState]. rewrite moveEnd_fire.
    apply fire_invariant. exact Hinv.
  - destruct (step_effect s e Hne) as [Hsel Hsty|Hsel Hsty|f Hsel Hsty];
      intros i Hi; rewrite Hsty in Hi.
    + rewrite Hsel. apply Hinv, Hi.
    + rewrite (clearedStyle_empty s i Hinv) in Hi. destruct Hi; discriminate.
    + rewrite (clearedStyle_empty s i Hinv) in Hi. destruct Hi; discriminate.
Qed.

Lemma run_invariant (es : list Event) (s : State) :
  onlySelectionStyled s -> onlySelectionStyled (run s es).
Proof.
  revert s; induction es as [|e es IH]; intros s Hinv; cbn; [exact Hinv|].
  apply IH, step_invariant, Hinv.
Qed.

Lemma initialState_style (srcs : Layer -> VectorSource) :
  featureStyle (initialState srcs) = ∅.
Proof.
  unfold initialState, initializeSearchFeatures, layersToSearch, pushIfReady.
  cbn. repeat destruct (isReady _); reflexivity.
Qed.

Lemma initialState_invariant (srcs : Layer -> VectorSource) :
  onlySelectionStyled (initialState srcs).
Proof.
  intros i Hi. rewrite initialState_style, lookup_empty in Hi.
  destruct Hi; discriminate.
Qed.



Lemma mapClick_hit (B : Feature) (layer : Layer) (vp : Viewport) (s : State) :
  selectedFeature (step s (MapClick (Some (B, layer)) vp)) = Some B /\
  featureStyle (step s (MapClick (Some (B, layer)) vp)) = clearedStyle s.
Proof.
  unfold step. cbn [handle mapClick].
  destruct (geometry B); [destruct (clickMaxZoom B)|]; cbn [finalState];
    unfold fitTo; cbn [selectedFeature featureStyle set_fitRequests set_moveendOnce];
    rewrite openInfoPanel_selected, openInfoPanel_style; cbn;
    rewrite resetFeatureStyle_style; split; reflexivity.
Qed.


Lemma not_highlighted_cleared (s s' : State) :
  onlySelectionStyled s -> featureStyle s' = clearedStyle s ->
  forall f, ~ highlighted s' f.
Proof.
  intros Hinv Hsty f Hf. unfold highlighted in Hf.
  rewrite Hsty, (clearedStyle_empty s (fid f) Hinv) in Hf. destruct Hf; discriminate.
Qed.

(** C3. Highlight exclusivity: in every state the page can reach, the
    features carrying a style override all are the selected feature, so no
    two distinct features are highlighted together; [resetFeatureStyle]
    leaves no selection and no override; a handler other than [moveend] that
    changes the selection leaves no override behind; and a map click on [B]
    stores [B] with no feature highlighted, after which the settled camera
    fit can highlight [B] only. *)
Theorem C3_highlight_exclusive (srcs : Layer -> VectorSource) (es : list Event) :
  let s := run (initialState srcs) es in
  (forall f g, highlighted s f -> highlighted s g -> fid f = fid g) /\
  (forall f, highlighted s f -> exists g, selectedFeature s = Some g /\ fid g = fid f) /\
  (selectedFeature (resetFeatureStyle s) = None /\
   forall f, ~ highlighted (resetFeatureStyle s) f) /\
  (forall e, e <> MoveEnd -> selectedFeature (step s e) <> selectedFeature s ->
             forall f, ~ highlighted (step s e) f) /\
  (forall B layer vp,
     let s' := step s (MapClick (Some (B, layer)) vp) in
     selectedFeature s' = Some B /\
     (forall f, ~ highlighted s' f) /\
     (forall f, highlighted (step s' MoveEnd) f -> fid f = fid B)).
Proof.
  intros s.
  assert (Hinv : onlySelectionStyled s)
    by (apply run_invariant, initialState_invariant).
  split; [|split; [|split; [|split]]].
  - intros f g Hf Hg.
    destruct (Hinv _ Hf) as (a & Ha & Hfa), (Hinv _ Hg) as (b & Hb & Hgb). congruence.
  - intros f Hf. exact (Hinv _ Hf).
  - split; [apply resetFeatureStyle_selected|].
    apply (not_highlighted_cleared s); [exact Hinv | apply resetFeatureStyle_style].
  - intros e Hne Hchanged.
    destruct (step_effect s e Hne) as [Hsel Hsty|Hsel Hsty|f Hsel Hsty];
      [contradiction|..]; apply (not_highlighted_cleared s); assumption.
  - intros B layer vp s'. destruct (mapClick_hit B layer vp s) as [Hsel Hsty].
    fold s' in Hsel, Hsty. split; [exact Hsel|]. split.
    + apply (not_highlighted_cleared s); assumption.
    + intros f Hf.
      assert (Hinv' : onlySelectionStyled (step s' MoveEnd))
        by (do 2 apply step_invariant; exact Hinv).
      destruct (Hinv' _ Hf) as (g & Hg & Hfid).
      unfold step in Hg. cbn [handle finalState] in Hg.
      rewrite moveEnd_fire, fire_selected in Hg. cbn in Hg.
      fold (step s (MapClick (Some (B, layer)) vp)) in Hg. fold s' in Hg. congruence.
Qed.

Lemma performSearch_found (q : string) (vp : Viewport) (s : State)
    (B : Feature) (layer : Layer) :
  q <> "" ->
  scanLayers q (fun l => getFeatures (sources s l)) mapLayers None = Ok (Some (B, layer)) ->
  performSearch q vp s =
  let s1 := openInfoPanel B (set_selectedFeature (Some B) (resetFeatureStyle s)) in
  match geometry B with
  | Some extent =>
      match searchMaxZoom B with
      | TypeError => Threw s1
      | Ok zoom => Done (fitTo layer extent vp zoom s1)
      end
  | None => Done s1
  end.
Proof.
  intros Hq Hscan. unfold performSearch.
  destruct (String.eqb_spec q "") as [Heq|_]; [contradiction|].
  rewrite Hscan. reflexivity.
Qed.



End Highlight.
End HighlightProps.

(** ** Runs on the sample data *)

Module HighlightRuns.
Import App Examples HighlightProps.

Section Runs.
#[local] Existing Instance asciiBuiltins.
#[local] Existing Instance sampleRendering.

Definition noData : Layer -> VectorSource := fun _ => emptySource.

(** A cable is clicked and the camera settles, then a data center is
    clicked and the camera settles. *)
Definition twoSelections : list Event :=
  [MapClick (Some (cableA, cableLayer)) desktop; MoveEnd;
   MapClick (Some (dcSantiago, dataCenterLayer)) desktop; MoveEnd].


Lemma C3_highlight_exclusive_witness :
  highlighted (run (initialState noData) twoSelections) dcSantiago /\
  ~ highlighted (run (initialState noData) twoSelections) cableA.
Proof.
  assert (Hd : highlighted (run (initialState noData) twoSelections) dcSantiago)
    by (vm_compute; eexists; reflexivity).
  split; [exact Hd|]. intros Hc.
  pose proof (proj1 (C3_highlight_exclusive noData twoSelections) cableA dcSantiago Hc Hd)
    as Hfid.
  discriminate Hfid.
Defined.


End Runs.
End HighlightRuns.

(** ** Search, camera fit, store and search box *)

Module PageProps.
Import Formatter Search App SearchProps ScanProps StringFacts HighlightProps.

Section Page.
Context `{Builtins} `{Rendering}.

Ltac frame_reset := unfold resetFeatureStyle; destruct (selectedFeature _); reflexivity.
Ltac frame_open := unfold openInfoPanel; cbn; destruct (layerControlsOpen _); reflexivity.

Lemma resetFeatureStyle_store (s : State) :
  allFeatures (resetFeatureStyle s) = allFeatures s.
Proof. frame_reset. Qed.

Lemma resetFeatureStyle_suggestions (s : State) :
  suggestionsList (resetFeatureStyle s) = suggestionsList s.
Proof. frame_reset. Qed.

Lemma resetFeatureStyle_fits (s : State) :
  fitRequests (resetFeatureStyle s) = fitRequests s.
Proof. frame_reset. Qed.

Lemma openInfoPanel_store (f : Feature) (s : State) :
  allFeatures (openInfoPanel f s) = allFeatures s.
Proof. frame_open. Qed.

Lemma openInfoPanel_suggestions (f : Feature) (s : State) :
  suggestionsList (openInfoPanel f s) = suggestionsList s.
Proof. frame_open. Qed.

Lemma openInfoPanel_fits (f : Feature) (s : State) :
  fitRequests (openInfoPanel f s) = fitRequests s.
Proof. frame_open. Qed.

Lemma openInfoPanel_open (f : Feature) (s : State) :
  infoPanelOpen (openInfoPanel f s) = true.
Proof. frame_open. Qed.

Lemma openInfoPanel_content (f : Feature) (s : State) :
  panelContent (openInfoPanel f s) = getFormattedFeatureInfo f.
Proof. frame_open. Qed.

(** The state in which a selection handler ends: after the panel is open,
    with or without the camera fit. *)
Inductive EndsSelecting (f : Feature) (s : State) : State -> Prop :=
  | EndsWithoutFit :
      EndsSelecting f s (openInfoPanel f (set_selectedFeature (Some f) (resetFeatureStyle s)))
  | EndsWithFit (layer : Layer) (extent : Extent) (vp : Viewport) (zoom : Z) :
      EndsSelecting f s
        (fitTo layer extent vp zoom
           (openInfoPanel f (set_selectedFeature (Some f) (resetFeatureStyle s)))).

Lemma EndsSelecting_fields (f : Feature) (s s' : State) :
  EndsSelecting f s s' ->
  selectedFeature s' = Some f /\ infoPanelOpen s' = true /\
  panelContent s' = getFormattedFeatureInfo f /\
  suggestionsList s' = suggestionsList s /\ allFeatures s' = allFeatures s.
Proof.
  intros [|layer extent vp zoom]; unfold fitTo;
    cbn [selectedFeature infoPanelOpen panelContent suggestionsList allFeatures
         set_fitRequests set_moveendOnce];
    rewrite openInfoPanel_selected, openInfoPanel_open, openInfoPanel_content,
      openInfoPanel_suggestions, openInfoPanel_store; cbn;
    rewrite resetFeatureStyle_suggestions, resetFeatureStyle_store; auto.
Qed.

Lemma performSearch_found_ends (q : string) (vp : Viewport) (s : State)
    (f : Feature) (layer : Layer) :
  q <> "" ->
  scanLayers q (fun l => getFeatures (sources s l)) mapLayers None = Ok (Some (f, layer)) ->
  EndsSelecting f s (finalState (performSearch q vp s)).
Proof.
  intros Hq Hscan. rewrite (performSearch_found q vp s f layer Hq Hscan). cbn zeta.
  destruct (geometry f); [destruct (searchMaxZoom f)|]; cbn [finalState]; constructor.
Qed.

Lemma mapClick_ends (f : Feature) (layer : Layer) (vp : Viewport) (s : State) :
  EndsSelecting f s (step s (MapClick (Some (f, layer)) vp)).
Proof.
  unfold step. cbn [handle mapClick].
  destruct (geometry f); [destruct (clickMaxZoom f)|]; cbn [finalState]; constructor.
Qed.

(** C1, as amended. [performSearch] on a non-empty term walks the vector
    layers of the map in layer order (cables, land cables, points, data
    centers) and the features of each source in order, not the Feature
    Store; the last feature of that walk that its test accepts becomes the
    selection and fills the open info panel; when the test accepts no
    feature, nothing is selected, the state is otherwise unchanged and the
    message "No matches were found." is appended to the suggestions element. *)
Theorem C1_performSearch_last_of_layer_scan (s : State) (vp : Viewport) (q : string) :
  q <> "" ->
  (forall pre f l post,
     scanOrder (fun l => getFeatures (sources s l)) = (pre ++ (f, l) :: post)%list ->
     Forall (fun p => exists b, performSearchMatches (fst p) q = Ok b) pre ->
     performSearchMatches f q = Ok true ->
     Forall (fun p => performSearchMatches (fst p) q = Ok false) post ->
     selectedFeature (finalState (performSearch q vp s)) = Some f /\
     infoPanelOpen (finalState (performSearch q vp s)) = true /\
     panelContent (finalState (performSearch q vp s)) = getFormattedFeatureInfo f /\
     suggestionsList (finalState (performSearch q vp s)) = suggestionsList s) /\
  (Forall (fun p => performSearchMatches (fst p) q = Ok false)
          (scanOrder (fun l => getFeatures (sources s l))) ->
   performSearch q vp s
   = Done (set_suggestionsShown true
             (set_suggestionsList
                (suggestionsList s ++ [NoResultsMessage "No matches were found."]) s))).
Proof.
  intros Hq. split.
  - intros pre f l post Horder Hpre Hf Hpost.
    assert (Hscan : scanLayers q (fun l => getFeatures (sources s l)) mapLayers None
                    = Ok (Some (f, l))).
    { rewrite scanLayers_pairs, Horder. apply scanPairs_last; assumption. }
    destruct (EndsSelecting_fields f s _ (performSearch_found_ends q vp s f l Hq Hscan))
      as (Hsel & Hopen & Hcontent & Hsugg & _).
    auto.
  - intros Hnone. unfold performSearch.
    destruct (String.eqb_spec q "") as [Heq|_]; [contradiction|].
    rewrite scanLayers_pairs, (scanPairs_no_match q _ None Hnone). reflexivity.
Qed.

(** X3. When the search button is clicked on a non-empty query that no
    feature of the layer walk matches, [performSearch] appends its "No
    matches were found." message and shows the suggestions element, and the
    click listener then hides that element again: the handler ends with the
    message in a hidden element. *)
Lemma searchButtonClick_no_match_hidden (s : State) (vp : Viewport) :
  trim (searchBoxValue s) <> "" ->
  Forall (fun p => performSearchMatches (fst p) (trim (searchBoxValue s)) = Ok false)
         (scanOrder (fun l => getFeatures (sources s l))) ->
  step s (SearchButtonClick vp)
  = set_suggestionsShown false
      (set_suggestionsList
         (suggestionsList s ++ [NoResultsMessage "No matches were found."]) s).
Proof.
  intros Hq Hnone. unfold step. cbn [handle]. unfold searchButtonClick, performSearch.
  destruct (String.eqb_spec (trim (searchBoxValue s)) "") as [Heq|_]; [contradiction|].
  rewrite scanLayers_pairs, (scanPairs_no_match _ _ None Hnone). reflexivity.
Qed.

(** C7. With an empty or white-space-only search box, [performSearch] on
    the trimmed text raises the blocking prompt and does nothing else: the
    search button leaves the selection, the style overrides, the info panel
    and the store as they were; the keyup handler empties the suggestions
    element and hides it. *)
Theorem C7_empty_query (s : State) (vp : Viewport) :
  whitespaceOnly (searchBoxValue s) = true ->
  performSearch (trim (searchBoxValue s)) vp s
  = Done (set_alerts (alerts s ++ [emptyQueryAlert]) s) /\
  searchButtonClick vp s
  = Done (set_suggestionsShown false (set_alerts (alerts s ++ [emptyQueryAlert]) s)) /\
  (selectedFeature (step s (SearchButtonClick vp)) = selectedFeature s /\
   featureStyle (step s (SearchButtonClick vp)) = featureStyle s /\
   infoPanelOpen (step s (SearchButtonClick vp)) = infoPanelOpen s /\
   panelContent (step s (SearchButtonClick vp)) = panelContent s /\
   allFeatures (step s (SearchButtonClick vp)) = allFeatures s /\
   moveendOnce (step s (SearchButtonClick vp)) = moveendOnce s /\
   fitRequests (step s (SearchButtonClick vp)) = fitRequests s) /\
  searchBoxKeyUp s = Done (set_suggestionsShown false (set_suggestionsList [] s)).
Proof.
  intros Hws. pose proof (trim_whitespaceOnly _ Hws) as Htrim.
  assert (Hsearch : performSearch (trim (searchBoxValue s)) vp s
                    = Done (set_alerts (alerts s ++ [emptyQueryAlert]) s))
    by (rewrite Htrim; reflexivity).
  split; [exact Hsearch|].
  assert (Hclick : searchButtonClick vp s
                   = Done (set_suggestionsShown false
                             (set_alerts (alerts s ++ [emptyQueryAlert]) s)))
    by (unfold searchButtonClick; rewrite Hsearch; reflexivity).
  split; [exact Hclick|]. split.
  - unfold step. cbn [handle]. rewrite Hclick. cbn. repeat split; reflexivity.
  - unfold searchBoxKeyUp. rewrite Htrim, toLowerCase_empty. reflexivity.
Qed.

Lemma typeIs_string (t literal : string) :
  literal <> "" ->
  typeIs (VStr t) literal = Ok (String.eqb (toLowerCase t) literal).
Proof.
  intros Hlit. unfold typeIs. cbn [truthy].
  destruct (String.eqb_spec t "") as [->|Hne]; cbn [negb]; [|reflexivity].
  rewrite toLowerCase_empty.
  destruct (String.eqb_spec "" literal) as [Heq|_]; [congruence|reflexivity].
Qed.

Lemma typeIs_falsy (v : value) (literal : string) :
  truthy v = false -> typeIs v literal = Ok false.
Proof. intros Hv. unfold typeIs. rewrite Hv. reflexivity. Qed.

Definition fitRequest (extent : Extent) (vp : Viewport) (zoom : Z) : FitOptions :=
  {| fitExtent := extent; duration := 700; padding := fitPadding vp; maxZoom := zoom |}.

Lemma mapClick_fits (f : Feature) (layer : Layer) (vp : Viewport) (s : State)
    (extent : Extent) (zoom : Z) :
  geometry f = Some extent -> clickMaxZoom f = Ok zoom ->
  fitRequests (step s (MapClick (Some (f, layer)) vp))
  = (fitRequests s ++ [fitRequest extent vp zoom])%list.
Proof.
  intros Hgeo Hzoom. unfold step. cbn [handle mapClick]. rewrite Hgeo, Hzoom.
  cbn [finalState]. unfold fitTo. cbn [fitRequests set_fitRequests set_moveendOnce].
  rewrite openInfoPanel_fits. cbn. rewrite resetFeatureStyle_fits. reflexivity.
Qed.

Lemma searchButtonClick_fits (f : Feature) (layer : Layer) (vp : Viewport) (s : State)
    (extent : Extent) (zoom : Z) :
  trim (searchBoxValue s) <> "" ->
  scanLayers (trim (searchBoxValue s)) (fun l => getFeatures (sources s l)) mapLayers None
  = Ok (Some (f, layer)) ->
  geometry f = Some extent -> searchMaxZoom f = Ok zoom ->
  fitRequests (step s (SearchButtonClick vp))
  = (fitRequests s ++ [fitRequest extent vp zoom])%list.
Proof.
  intros Hq Hscan Hgeo Hzoom. unfold step. cbn [handle]. unfold searchButtonClick.
  rewrite (performSearch_found _ vp s f layer Hq Hscan). cbn zeta.
  rewrite Hgeo, Hzoom. cbn [andThen finalState]. unfold fitTo.
  cbn [fitRequests set_fitRequests set_moveendOnce set_suggestionsShown].
  rewrite openInfoPanel_fits. cbn. rewrite resetFeatureStyle_fits. reflexivity.
Qed.

(** C8. The max zoom of the camera fit follows the type of the feature,
    compared in lower case: "data center" gives 15 and "punto de
    aterrizaje" gives 13 on both paths; any other type, or none, gives 16 on
    a map click and 14 on a search; and the [view.fit] call of each path
    carries that max zoom. *)
Theorem C8_max_zoom (f : Feature) :
  (forall t, get f "type" = VStr t -> toLowerCase t = "data center" ->
             clickMaxZoom f = Ok 15 /\ searchMaxZoom f = Ok 15) /\
  (forall t, get f "type" = VStr t -> toLowerCase t = "punto de aterrizaje" ->
             clickMaxZoom f = Ok 13 /\ searchMaxZoom f = Ok 13) /\
  (forall t, get f "type" = VStr t -> toLowerCase t <> "data center" ->
             toLowerCase t <> "punto de aterrizaje" ->
             clickMaxZoom f = Ok 16 /\ searchMaxZoom f = Ok 14) /\
  (truthy (get f "type") = false ->
   clickMaxZoom f = Ok 16 /\ searchMaxZoom f = Ok 14) /\
  (forall s layer vp extent zoom,
     geometry f = Some extent -> clickMaxZoom f = Ok zoom ->
     fitRequests (step s (MapClick (Some (f, layer)) vp))
     = (fitRequests s ++ [fitRequest extent vp zoom])%list) /\
  (forall s layer vp extent zoom,
     trim (searchBoxValue s) <> "" ->
     scanLayers (trim (searchBoxValue s)) (fun l => getFeatures (sources s l))
                mapLayers None = Ok (Some (f, layer)) ->
     geometry f = Some extent -> searchMaxZoom f = Ok zoom ->
     fitRequests (step s (SearchButtonClick vp))
     = (fitRequests s ++ [fitRequest extent vp zoom])%list).
Proof.
  assert (Hdc : "data center" <> "") by discriminate.
  assert (Hpa : "punto de aterrizaje" <> "") by discriminate.
  unfold clickMaxZoom, searchMaxZoom.
  split; [|split; [|split; [|split; [|split]]]].
  - intros t -> Ht. rewrite !typeIs_string, Ht by assumption. split; reflexivity.
  - intros t -> Ht. rewrite !typeIs_string, Ht by assumption. split; reflexivity.
  - intros t -> Hn1 Hn2. rewrite !typeIs_string by assumption.
    destruct (String.eqb_spec (toLowerCase t) "data center"); [contradiction|].
    destruct (String.eqb_spec (toLowerCase t) "punto de aterrizaje"); [contradiction|].
    split; reflexivity.
  - intros Hfalsy. rewrite !typeIs_falsy by assumption. split; reflexivity.
  - intros s layer vp extent zoom. apply mapClick_fits.
  - intros s layer vp extent zoom. apply searchButtonClick_fits.
Qed.

(** *** The Feature Store *)









(** C10. A click on the search box empties it whenever it holds text, and
    changes nothing else; on an empty box it changes nothing at all. Either
    way the box is empty afterwards. *)
Theorem C10_search_box_click (s : State) :
  searchBoxValue (step s SearchBoxClick) = "" /\
  step s SearchBoxClick
  = (if String.eqb (searchBoxValue s) "" then s else set_searchBoxValue "" s).
Proof.
  unfold step. cbn [handle finalState]. unfold searchBoxClick.
  rewrite (eqb_empty_length (searchBoxValue s)).
  destruct (0 <? Z.of_nat (String.length (searchBoxValue s))) eqn:Hlen; cbn.
  - split; reflexivity.
  - split; [|reflexivity].
    destruct (searchBoxValue s); [reflexivity|discriminate].
Qed.

End Page.
End PageProps.

(** ** Suggestions *)

Module SuggestProps.
Import Formatter Search App SearchProps.








Section Suggest.
Context `{Builtins}.






End Suggest.

Section KeyUp.
Context `{Builtins} `{Rendering}.





End KeyUp.
End SuggestProps.

(** ** The two matching predicates, and the formatter's exclusions *)

Module MatchProps.
Import Formatter Search SearchProps.

Section Match.
Context `{Builtins}.

(** C2, as amended. For a feature whose searched fields are strings or
    missing, the keyup handler accepts it exactly when the query occurs,
    case-insensitively, in one of the seven fields name-or-nombre, type,
    location-or-ubicación, address-or-Dirección, comuna, Empresa,
    operator-or-operador, and [performSearch] accepts it exactly when the
    query occurs in one of the same fields without type; each predicate
    answers false exactly when no such field exists. *)
Theorem C2_matching_predicates (F : Feature) (q : string) :
  Forall (fun v => textual v = true) (suggestedFields F) ->
  (suggestMatches F (toLowerCase q) = Ok true
   <-> Exists (fieldContains q) (suggestedFields F)) /\
  (suggestMatches F (toLowerCase q) = Ok false
   <-> ~ Exists (fieldContains q) (suggestedFields F)) /\
  (performSearchMatches F q = Ok true
   <-> Exists (fieldContains q) (searchedFields F)) /\
  (performSearchMatches F q = Ok false
   <-> ~ Exists (fieldContains q) (searchedFields F)).
Proof.
  intros Htyped. pose proof (searchedFields_textual F Htyped) as Htyped'.
  rewrite suggestMatches_anyField, performSearchMatches_anyField.
  destruct (anyField_textual (suggestedFields F) q Htyped) as [Ht Hf].
  destruct (anyField_textual (searchedFields F) q Htyped') as [Ht' Hf'].
  repeat split;
    auto using anyField_true, anyField_false.
Qed.

(** X1. Every property whose key, put in lower case, is literally an entry
    of [excludedKeys] produces nothing, whatever its value. *)
Lemma excluded_key_silent (name : value) (key : string) (v : value) :
  In (toLowerCase key) excludedKeys -> formatProperty name key v = [].
Proof.
  intros Hin. unfold formatProperty, arrayIncludes.
  replace (existsb (String.eqb (toLowerCase key)) excludedKeys) with true; [reflexivity|].
  symmetry. apply existsb_exists. exists (toLowerCase key).
  split; [exact Hin | apply String.eqb_refl].
Qed.


End Match.
End MatchProps.

(** ** Runs of the search and the formatter on the sample data *)

Module SearchRuns.
Import Formatter Search App SearchProps ScanProps Examples HighlightRuns.
Import PageProps SuggestProps MatchProps.

Section Runs.
#[local] Existing Instance asciiBuiltins.
#[local] Existing Instance sampleRendering.

(** The points load first, then the cables. *)
Definition pointsThenCables : State :=
  run (initialState noData)
      [SourceChange pointLayer (loaded [cableStation]);
       SourceChange cableLayer (loaded [cableA])].

(** C1, the specification's statement fails: the store holds the point and then the
    cable, both match "cable a", so the last match of a scan of the store is
    the cable; [performSearch] walks the layers of the map, cables before
    points, and selects the point. *)
Lemma C1_counterexample :
  allFeatures pointsThenCables = [cableStation; cableA] /\
  lastMatchIn "cable a" (allFeatures pointsThenCables) None = Ok (Some cableA) /\
  selectedFeature (finalState (performSearch "cable a" desktop pointsThenCables))
  = Some cableStation /\
  cableStation <> cableA.
Proof. repeat split; try reflexivity. discriminate. Qed.

Lemma C1_performSearch_last_of_layer_scan_witness :
  selectedFeature (finalState (performSearch "cable a" desktop pointsThenCables))
  = Some cableStation /\
  performSearch "valdivia" desktop pointsThenCables
  = Done (set_suggestionsShown true
            (set_suggestionsList [NoResultsMessage "No matches were found."]
               pointsThenCables)).
Proof.
  assert (Hq : "cable a" <> "") by discriminate.
  assert (Hq' : "valdivia" <> "") by discriminate.
  split.
  - destruct (C1_performSearch_last_of_layer_scan pointsThenCables desktop "cable a" Hq)
      as [Hfound _].
    apply (Hfound [(cableA, cableLayer)] cableStation pointLayer []).
    + reflexivity.
    + repeat constructor. exists true. reflexivity.
    + reflexivity.
    + constructor.
  - destruct (C1_performSearch_last_of_layer_scan pointsThenCables desktop "valdivia" Hq')
      as [_ Hnone].
    apply Hnone. repeat constructor.
Defined.

(** C2, the specification's statement fails twice: a feature that only has a type
    has a field of the specification's list containing "data", and
    [performSearch] rejects it; a feature with its company under [empresa]
    has a field of that list containing "entel", and the keyup handler
    rejects it. *)
Lemma C2_counterexample :
  (specMatches "data" unnamedDataCenter /\
   suggestMatches unnamedDataCenter (toLowerCase "data") = Ok true /\
   performSearchMatches unnamedDataCenter "data" = Ok false) /\
  (specMatches "entel" lowerEmpresa /\
   suggestMatches lowerEmpresa (toLowerCase "entel") = Ok false /\
   performSearchMatches lowerEmpresa "entel" = Ok false).
Proof.
  split; (split; [|split; reflexivity]).
  - unfold specMatches, specFields. apply Exists_cons_tl, Exists_cons_hd.
    exists "Data Center". repeat split; [discriminate|].
    exists "", " center". reflexivity.
  - unfold specMatches, specFields. do 5 apply Exists_cons_tl. apply Exists_cons_hd.
    exists "Entel". repeat split; [discriminate|].
    exists "", "". reflexivity.
Qed.

Lemma C2_matching_predicates_witness :
  suggestMatches dcSantiago (toLowerCase "ENTEL") = Ok true /\
  performSearchMatches dcSantiago "ENTEL" = Ok true /\
  suggestMatches dcSantiago (toLowerCase "data") = Ok true /\
  performSearchMatches dcSantiago "data" = Ok false.
Proof.
  assert (Htyped : Forall (fun v => textual v = true) (suggestedFields dcSantiago))
    by (repeat constructor).
  destruct (C2_matching_predicates dcSantiago "ENTEL" Htyped) as (Hs & _ & Hp & _).
  destruct (C2_matching_predicates dcSantiago "data" Htyped) as (Hs' & _ & _ & Hp').
  assert (Hentel : fieldContains "ENTEL" (VStr "Entel")).
  { exists "Entel". repeat split; [discriminate|]. exists "", "". reflexivity. }
  assert (Hdata : fieldContains "data" (VStr "Data Center")).
  { exists "Data Center". repeat split; [discriminate|]. exists "", " center". reflexivity. }
  split; [apply Hs; do 5 apply Exists_cons_tl; apply Exists_cons_hd; exact Hentel|].
  split; [apply Hp; do 4 apply Exists_cons_tl; apply Exists_cons_hd; exact Hentel|].
  split; [apply Hs'; apply Exists_cons_tl, Exists_cons_hd; exact Hdata|].
  reflexivity.
Defined.

(** C4, the code at the failing input: the cable carries a [lineDash]
    property, whose lower-cased key "linedash" is not the entry "lineDash" of
    [excludedKeys], and the formatter emits a label/value line for it. *)
Theorem C4_lineDash_line_emitted :
  toLowerCase "lineDash" = "linedash" /\
  arrayIncludes excludedKeys (toLowerCase "lineDash") = false /\
  formatProperty (VStr "Cable A") "lineDash" (VStr "4,8")
  = [InfoItem "LineDash" (VStr "4,8")] /\
  getFormattedFeatureInfo cableA
  = [Title (VStr "Cable A"); Subtitle (VStr "Elemento");
     InfoItem "LineDash" (VStr "4,8")].
Proof. repeat split; reflexivity. Qed.



(** Only blanks in the search box, with a selection in place. *)
Definition blankQuery : State :=
  run (initialState noData)
      [MapClick (Some (cableA, cableLayer)) desktop; MoveEnd; SearchBoxInput "   "].

Lemma C7_empty_query_witness :
  whitespaceOnly (searchBoxValue blankQuery) = true /\
  alerts (step blankQuery (SearchButtonClick desktop))
  = ["Por favor, ingresa un término de búsqueda."] /\
  selectedFeature (step blankQuery (SearchButtonClick desktop)) = Some cableA /\
  searchBoxKeyUp blankQuery
  = Done (set_suggestionsShown false (set_suggestionsList [] blankQuery)).
Proof.
  assert (Hws : whitespaceOnly (searchBoxValue blankQuery) = true) by reflexivity.
  destruct (C7_empty_query blankQuery desktop Hws) as (_ & _ & (Hsel & _) & Hkeyup).
  split; [exact Hws|]. split; [reflexivity|]. split; [|exact Hkeyup].
  rewrite Hsel. reflexivity.
Defined.

Lemma C8_max_zoom_witness :
  (clickMaxZoom dcSantiago = Ok 15 /\ searchMaxZoom dcSantiago = Ok 15) /\
  (clickMaxZoom valparaiso = Ok 13 /\ searchMaxZoom valparaiso = Ok 13) /\
  (clickMaxZoom cableA = Ok 16 /\ searchMaxZoom cableA = Ok 14) /\
  fitRequests (step pointsThenCables (MapClick (Some (valparaiso, pointLayer)) desktop))
  = [{| fitExtent := (0, 0, 1, 1); duration := 700; padding := [50; 370; 50; 50];
        maxZoom := 13 |}].
Proof.
  destruct (C8_max_zoom dcSantiago) as (Hdc & _).
  destruct (C8_max_zoom valparaiso) as (_ & Hlp & _ & _ & Hfit & _).
  destruct (C8_max_zoom cableA) as (_ & _ & _ & Hnone & _).
  split; [exact (Hdc "Data Center" eq_refl eq_refl)|].
  split; [exact (Hlp "Punto de aterrizaje" eq_refl eq_refl)|].
  split; [exact (Hnone eq_refl)|].
  exact (Hfit pointsThenCables pointLayer desktop (0, 0, 1, 1) 13 eq_refl
              (proj1 (Hlp "Punto de aterrizaje" eq_refl eq_refl))).
Defined.

Lemma excluded_key_silent_witness :
  formatProperty (VStr "Cable A") "Color" (VStr "red") = [] /\
  formatProperty (VStr "Cable A") "ID" (VNum 7) = [].
Proof.
  split.
  - apply (excluded_key_silent (VStr "Cable A") "Color" (VStr "red")).
    cbn. tauto.
  - apply (excluded_key_silent (VStr "Cable A") "ID" (VNum 7)).
    cbn. tauto.
Defined.

(** A query that matches nothing. *)
Definition noSuchPlace : State :=
  run pointsThenCables [SearchBoxInput "valdivia"].

Lemma searchButtonClick_no_match_hidden_witness :
  suggestionsList (step noSuchPlace (SearchButtonClick desktop))
  = [NoResultsMessage "No matches were found."] /\
  suggestionsShown (step noSuchPlace (SearchButtonClick desktop)) = false.
Proof.
  assert (Hq : trim (searchBoxValue noSuchPlace) <> "") by discriminate.
  rewrite (searchButtonClick_no_match_hidden noSuchPlace desktop Hq)
    by (repeat constructor).
  split; reflexivity.
Defined.

End Runs.
End SearchRuns.

(** ** More on the formatter *)

Module FormatterProps.
Import Formatter.

Lemma mapString_length (f : ascii -> ascii) (s : string) :
  String.length (mapString f s) = String.length s.
Proof. induction s as [|c s IH]; cbn; [reflexivity|]. f_equal. exact IH. Qed.

Lemma capitalizeFrom_length (prev : bool) (s : string) :
  String.length (capitalizeFrom prev s) = String.length s.
Proof.
  revert prev; induction s as [|c s IH]; intros prev; cbn; [reflexivity|].
  f_equal. apply IH.
Qed.

Lemma upperAscii_not_underscore (c : ascii) :
  c <> "_"%char -> upperAscii c <> "_"%char.
Proof.
  intros Hc. unfold upperAscii. destruct (isLowerAscii c) eqn:Hlow; [|exact Hc].
  unfold isLowerAscii in Hlow. apply andb_true_iff in Hlow as [Hlo Hhi].
  apply Nat.leb_le in Hlo, Hhi. intros Heq.
  apply (f_equal nat_of_ascii) in Heq. rewrite nat_ascii_embedding in Heq by lia.
  change (nat_of_ascii "_"%char) with 95%nat in Heq. lia.
Qed.

Lemma capitalizeFrom_no_underscore (prev : bool) (s : string) (c : ascii) :
  (forall d, In d (list_ascii_of_string s) -> d <> "_"%char) ->
  In c (list_ascii_of_string (capitalizeFrom prev s)) -> c <> "_"%char.
Proof.
  revert prev; induction s as [|d s IH]; intros prev Hs; cbn; [tauto|].
  intros [<-|Hin].
  - destruct (isWordChar d && negb prev).
    + apply upperAscii_not_underscore, Hs. left. reflexivity.
    + apply Hs. left. reflexivity.
  - apply (IH (isWordChar d)); [|exact Hin].
    intros e He. apply Hs. right. exact He.
Qed.

Lemma replaceUnderscores_no_underscore (s : string) (c : ascii) :
  In c (list_ascii_of_string (replaceUnderscores s)) -> c <> "_"%char.
Proof.
  unfold replaceUnderscores. induction s as [|d s IH]; cbn; [tauto|].
  intros [<-|Hin]; [|auto].
  destruct (Ascii.eqb_spec d "_"%char) as [->|Hd]; [discriminate|exact Hd].
Qed.

(** X6. The label derived from a key that has no translation keeps the
    length of the key and holds no underscore. *)
Theorem derived_label_shape (key : string) :
  String.length (capitalizeWords (replaceUnderscores key)) = String.length key /\
  forall c, In c (list_ascii_of_string (capitalizeWords (replaceUnderscores key))) ->
            c <> "_"%char.
Proof.
  split.
  - unfold capitalizeWords, replaceUnderscores.
    rewrite capitalizeFrom_length, mapString_length. reflexivity.
  - intros c Hc. unfold capitalizeWords in Hc.
    apply (capitalizeFrom_no_underscore false (replaceUnderscores key) c); [|exact Hc].
    intros d. apply replaceUnderscores_no_underscore.
Qed.

Section Items.
Context `{Builtins}.

Lemma formatProperty_at_most_one (name : value) (key : string) (v : value) :
  (length (formatProperty name key v) <= 1)%nat.
Proof.
  unfold formatProperty.
  destruct (negb _ && truthy v); [|cbn; lia].
  destruct (String.eqb _ "image" && truthy v).
  - destruct v as [| | |src|]; cbn; try lia. destruct (startsWith src "http"); cbn; lia.
  - destruct (String.eqb _ "reference_link" && truthy v); [cbn; lia|].
    destruct v as [| | |[|c s]|]; cbn; lia.
Qed.

Lemma flat_map_at_most_one {A B : Type} (f : A -> list B) (l : list A) :
  (forall a, length (f a) <= 1)%nat -> (length (flat_map f l) <= length l)%nat.
Proof.
  intros Hf. induction l as [|a l IH]; cbn; [lia|].
  rewrite length_app. specialize (Hf a). lia.
Qed.

(** X4. The fragment holds the title, the subtitle and at most one item
    per property of the feature. *)
Theorem formatter_size (feature : Feature) :
  (2 <= length (getFormattedFeatureInfo feature)
   /\ length (getFormattedFeatureInfo feature) <= 2 + length (properties feature))%nat.
Proof.
  unfold getFormattedFeatureInfo. cbn [length].
  pose proof (flat_map_at_most_one
    (fun kv => formatProperty
                 (or_else (get feature "name") (VStr "Información del Elemento"))
                 (fst kv) (snd kv))
    (properties feature)
    (fun kv => formatProperty_at_most_one _ (fst kv) (snd kv))) as Hlen.
  lia.
Qed.

(** X5. A property produces an item exactly when its value is truthy, its
    key in lower case is not an entry of [excludedKeys] and, when that key is
    [image], the value is a string that starts with "http". *)
Theorem formatProperty_emits_iff (name : value) (key : string) (v : value) :
  formatProperty name key v <> []
  <-> truthy v = true /\
      arrayIncludes excludedKeys (toLowerCase key) = false /\
      (toLowerCase key = "image" ->
       exists src, v = VStr src /\ startsWith src "http" = true).
Proof.
  unfold formatProperty.
  destruct (arrayIncludes excludedKeys (toLowerCase key)) eqn:Hex; cbn [negb andb].
  { split; [congruence|intros (_ & Hf & _); discriminate]. }
  destruct (truthy v) eqn:Hv.
  2:{ split; [congruence|intros (Hf & _); discriminate]. }
  destruct (String.eqb_spec (toLowerCase key) "image") as [Himg|Himg]; cbn [andb].
  - destruct v as [| |n|src|]; try discriminate Hv.
    + split; [congruence|]. intros (_ & _ & Hsrc).
      destruct (Hsrc Himg) as (src & Hsrc' & _). discriminate.
    + destruct (startsWith src "http") eqn:Hhttp.
      * split; [|discriminate]. intros _. repeat split. intros _. eauto.
      * split; [congruence|]. intros (_ & _ & Hsrc).
        destruct (Hsrc Himg) as (src' & [= <-] & Hs). congruence.
    + split; [congruence|]. intros (_ & _ & Hsrc).
      destruct (Hsrc Himg) as (src & Hsrc' & _). discriminate.
  - destruct (String.eqb (toLowerCase key) "reference_link").
    + split; [|discriminate]. intros _. repeat split. intros Hc. contradiction.
    + destruct v as [| |n|[|c s]|]; try discriminate Hv;
        (split; [|discriminate]; intros _; repeat split; intros Hc; contradiction).
Qed.

End Items.
End FormatterProps.

(** ** Frames: what the helpers of the handlers leave alone *)

Module Frames.
Import Formatter Search App HighlightProps PageProps.

Section Frames.
Context `{Builtins} `{Rendering}.
Context {A : Type} (P : State -> A).

Lemma resetFeatureStyle_frame :
  (forall v s, P (set_featureStyle v s) = P s) ->
  (forall v s, P (set_selectedFeature v s) = P s) ->
  forall s, P (resetFeatureStyle s) = P s.
Proof.
  intros Hsty Hsel s. unfold resetFeatureStyle.
  destruct (selectedFeature s); [|reflexivity]. rewrite Hsel, Hsty. reflexivity.
Qed.



Lemma applyHighlight_frame :
  (forall v s, P (set_featureStyle v s) = P s) ->
  forall layer s, P (applyHighlight layer s) = P s.
Proof.
  intros Hsty layer s. unfold applyHighlight.
  destruct (selectedFeature s); [apply Hsty|reflexivity].
Qed.

Lemma fire_frame :
  (forall v s, P (set_featureStyle v s) = P s) ->
  forall layers s, P (fire layers s) = P s.
Proof.
  intros Hsty layers. induction layers as [|l layers IH]; intros s; cbn; [reflexivity|].
  unfold fire in IH. rewrite IH. apply applyHighlight_frame, Hsty.
Qed.


End Frames.
End Frames.

(** ** The info panel, the selection and the click flag *)

Module PanelProps.
Import Formatter Search App HighlightProps PageProps Frames.

Section Panel.
Context `{Builtins} `{Rendering}.

(** What a handler can do to the selection and the info panel. *)
Inductive PanelEffect (s s' : State) : Prop :=
  | PanelKept :
      selectedFeature s' = selectedFeature s ->
      infoPanelOpen s' = infoPanelOpen s ->
      panelContent s' = panelContent s -> PanelEffect s s'
  | PanelClosed :
      selectedFeature s' = selectedFeature s \/ selectedFeature s' = None ->
      infoPanelOpen s' = false ->
      panelContent s' = panelContent s -> PanelEffect s s'
  | PanelShows (f : Feature) :
      selectedFeature s' = Some f ->
      infoPanelOpen s' = true ->
      panelContent s' = getFormattedFeatureInfo f -> PanelEffect s s'.

Lemma panel_after (s s' s'' : State) :
  selectedFeature s'' = selectedFeature s' ->
  infoPanelOpen s'' = infoPanelOpen s' ->
  panelContent s'' = panelContent s' ->
  PanelEffect s s' -> PanelEffect s s''.
Proof.
  intros Hsel Hopen Hcontent [Ha Hb Hc|Ha Hb Hc|f Ha Hb Hc].
  - apply PanelKept; congruence.
  - apply PanelClosed; [destruct Ha; [left|right]|..]; congruence.
  - apply (PanelShows s s'' f); congruence.
Qed.

Lemma EndsSelecting_panel (f : Feature) (s s' : State) :
  EndsSelecting f s s' -> PanelEffect s s'.
Proof.
  intros Hends. destruct (EndsSelecting_fields f s s' Hends) as (Hsel & Hopen & Hcontent & _).
  exact (PanelShows s s' f Hsel Hopen Hcontent).
Qed.

Lemma reset_closed_panel (s0 s : State) :
  infoPanelOpen s0 = false -> panelContent s0 = panelContent s ->
  PanelEffect s (resetFeatureStyle s0).
Proof.
  intros Hopen Hcontent. apply PanelClosed.
  - right. apply resetFeatureStyle_selected.
  - rewrite (resetFeatureStyle_frame infoPanelOpen) by reflexivity. exact Hopen.
  - rewrite (resetFeatureStyle_frame panelContent) by reflexivity. exact Hcontent.
Qed.

Lemma performSearch_panel (q : string) (vp : Viewport) (s : State) :
  PanelEffect s (finalState (performSearch q vp s)).
Proof.
  destruct (String.eqb_spec q "") as [->|Hq]; [apply PanelKept; reflexivity|].
  destruct (scanLayers q (fun l => getFeatures (sources s l)) mapLayers None)
    as [[[f l]|]|] eqn:Hscan.
  - apply (EndsSelecting_panel f), (performSearch_found_ends q vp s f l Hq Hscan).
  - unfold performSearch. destruct (String.eqb_spec q ""); [contradiction|].
    rewrite Hscan. apply PanelKept; reflexivity.
  - unfold performSearch. destruct (String.eqb_spec q ""); [contradiction|].
    rewrite Hscan. apply PanelKept; reflexivity.
Qed.

Lemma hide_suggestions_panel (s : State) (o : Outcome) :
  PanelEffect s (finalState o) ->
  PanelEffect s (finalState (andThen o (fun s => Done (set_suggestionsShown false s)))).
Proof.
  destruct o as [s'|s']; cbn; intros Heff; [|exact Heff].
  apply (panel_after s s'); [reflexivity..|exact Heff].
Qed.

Lemma documentClick_panel (target : ClickTarget) (s : State) :
  PanelEffect s (documentClick target s).
Proof.
  unfold documentClick.
  set (hide := fun s' : State =>
                 if negb (inSearchContainer target)
                 then set_suggestionsShown false s' else s').
  assert (Hhide : forall s', PanelEffect s s' -> PanelEffect s (hide s')).
  { intros s' Heff. unfold hide. destruct (negb _); [|exact Heff].
    apply (panel_after s s'); [reflexivity..|exact Heff]. }
  apply Hhide.
  destruct (isClickOnFeature s); [apply PanelKept; reflexivity|].
  destruct (layerControlsOpen s && _ && _);
    (destruct (infoPanelOpen _ && _);
     [apply reset_closed_panel; reflexivity | apply PanelKept; reflexivity]).
Qed.

Lemma step_panel (s : State) (e : Event) : PanelEffect s (step s e).
Proof.
  unfold step. destruct e; cbn [handle finalState].
  - destruct hit as [[f l]|].
    + apply (EndsSelecting_panel f), mapClick_ends.
    + unfold mapClick. cbn [finalState].
      destruct (infoPanelOpen (set_isClickOnFeature false s)) eqn:Hopen;
        apply reset_closed_panel; first [reflexivity | exact Hopen].
  - rewrite moveEnd_fire. apply PanelKept.
    + rewrite fire_selected. reflexivity.
    + rewrite (fire_frame infoPanelOpen) by reflexivity. reflexivity.
    + rewrite (fire_frame panelContent) by reflexivity. reflexivity.
  - unfold closePanelClick. apply reset_closed_panel; reflexivity.
  - unfold toggleLayerControlsClick. cbn zeta.
    destruct (infoPanelOpen (set_layerControlsOpen _ s)) eqn:Hopen.
    + apply PanelClosed; [left|..]; reflexivity.
    + apply PanelKept; reflexivity.
  - apply documentClick_panel.
  - unfold sourceChange, pushIfReady. cbn.
    destruct (decide (layer = layer)); [|congruence].
    destruct (isReady _); apply PanelKept; reflexivity.
  - apply PanelKept; reflexivity.
  - unfold searchBoxKeyUp. cbn.
    destruct (0 <? _); [|apply PanelKept; reflexivity].
    destruct (filterMatching _ _); [|apply PanelKept; reflexivity].
    destruct (0 <? _); apply PanelKept; reflexivity.
  - unfold searchBoxClick. destruct (0 <? _); apply PanelKept; reflexivity.
  - unfold searchButtonClick. apply hide_suggestions_panel, performSearch_panel.
  - unfold suggestionClick.
    destruct (suggestionsList s !! i) as [[f nameText typeText|text]|];
      [|apply PanelKept; reflexivity..].
    apply hide_suggestions_panel.
    pose proof (performSearch_panel
      (trim (searchBoxValue (set_searchBoxValue
         (toDOMString (or_else (get f "name") (get f "nombre"))) s)))
      vp (set_searchBoxValue (toDOMString (or_else (get f "name") (get f "nombre"))) s))
      as Heff.
    destruct Heff as [Ha Hb Hc|Ha Hb Hc|g Ha Hb Hc].
    + apply PanelKept; assumption.
    + apply PanelClosed; assumption.
    + apply (PanelShows _ _ g); assumption.
Qed.

(** The open panel belongs to the selection. *)
Definition panelShowsSelection (s : State) : Prop :=
  (infoPanelOpen s = true -> selectedFeature s <> None) /\
  (forall f, selectedFeature s = Some f -> panelContent s = getFormattedFeatureInfo f).

Lemma step_panelShowsSelection (s : State) (e : Event) :
  panelShowsSelection s -> panelShowsSelection (step s e).
Proof.
  intros [Hopen Hshown].
  destruct (step_panel s e) as [Ha Hb Hc|Ha Hb Hc|f Ha Hb Hc]; split.
  - rewrite Ha, Hb. exact Hopen.
  - intros f Hf. rewrite Hc. apply Hshown. congruence.
  - rewrite Hb. discriminate.
  - intros f Hf. rewrite Hc. apply Hshown. destruct Ha; congruence.
  - rewrite Ha. discriminate.
  - intros g Hg. congruence.
Qed.

Lemma initializeSearchFeatures_frame {A : Type} (P : State -> A) :
  (forall v s, P (set_allFeatures v s) = P s) ->
  forall s, P (initializeSearchFeatures s) = P s.
Proof.
  intros Hstore. unfold initializeSearchFeatures.
  induction layersToSearch as [|l layers IH]; intros s; cbn; [reflexivity|].
  rewrite IH. unfold pushIfReady. destruct (isReady _); [apply Hstore|reflexivity].
Qed.

Lemma initialState_panel (srcs : Layer -> VectorSource) :
  selectedFeature (initialState srcs) = None /\ infoPanelOpen (initialState srcs) = false.
Proof.
  unfold initialState.
  rewrite (initializeSearchFeatures_frame selectedFeature),
    (initializeSearchFeatures_frame infoPanelOpen) by reflexivity.
  split; reflexivity.
Qed.

Lemma run_panelShowsSelection (es : list Event) (s : State) :
  panelShowsSelection s -> panelShowsSelection (run s es).
Proof.
  revert s; induction es as [|e es IH]; intros s Hinv; cbn; [exact Hinv|].
  apply IH, step_panelShowsSelection, Hinv.
Qed.

(** X7. In every state the page can reach, an open info panel comes with a
    selected feature, and whenever a feature is selected the panel content
    is the formatter's output for that feature. *)
Theorem panel_shows_selection (srcs : Layer -> VectorSource) (es : list Event) :
  (infoPanelOpen (run (initialState srcs) es) = true ->
   exists f, selectedFeature (run (initialState srcs) es) = Some f) /\
  (forall f, selectedFeature (run (initialState srcs) es) = Some f ->
             panelContent (run (initialState srcs) es) = getFormattedFeatureInfo f).
Proof.
  assert (Hinv : panelShowsSelection (run (initialState srcs) es)).
  { apply run_panelShowsSelection. destruct (initialState_panel srcs) as [Hsel Hopen].
    split; [rewrite Hopen; discriminate|]. intros f Hf. congruence. }
  destruct Hinv as [Hopen Hshown]. split; [|exact Hshown].
  intros Ho. destruct (selectedFeature (run (initialState srcs) es)) as [f|] eqn:Hsel.
  - eauto.
  - exfalso. apply (Hopen Ho). reflexivity.
Qed.

(** *** The shape and the life of a highlight *)











(** *** The click flag *)

Lemma EndsSelecting_flag (f : Feature) (s s' : State) :
  EndsSelecting f s s' -> isClickOnFeature s' = true.
Proof.
  intros [|layer extent vp zoom]; unfold fitTo, openInfoPanel; cbn;
    destruct (layerControlsOpen _); reflexivity.
Qed.

Lemma documentClick_flagged (target : ClickTarget) (s : State) :
  isClickOnFeature s = true ->
  selectedFeature (documentClick target s) = selectedFeature s /\
  featureStyle (documentClick target s) = featureStyle s /\
  infoPanelOpen (documentClick target s) = infoPanelOpen s /\
  isClickOnFeature (documentClick target s) = false.
Proof.
  intros Hflag. unfold documentClick. rewrite Hflag.
  destruct (negb (inSearchContainer target)); repeat split; reflexivity.
Qed.

Lemma documentClick_outside (target : ClickTarget) (s : State) :
  isClickOnFeature s = false -> infoPanelOpen s = true -> inInfoPanel target = false ->
  selectedFeature (documentClick target s) = None /\
  featureStyle (documentClick target s) = clearedStyle s /\
  infoPanelOpen (documentClick target s) = false.
Proof.
  intros Hflag Hopen Htarget. unfold documentClick. rewrite Hflag.
  assert (Hopen' : forall b : bool, infoPanelOpen (if b then set_layerControlsOpen false s else s)
                             && negb (inInfoPanel target) = true).
  { intros []; cbn; rewrite Hopen, Htarget; reflexivity. }
  rewrite Hopen'.
  destruct (negb (inSearchContainer target)),
    (layerControlsOpen s && negb (inLayerControls target) && negb (inToggleButton target));
    cbn [selectedFeature featureStyle infoPanelOpen set_suggestionsShown];
    rewrite resetFeatureStyle_selected, resetFeatureStyle_style,
      (resetFeatureStyle_frame infoPanelOpen) by reflexivity;
    repeat split; reflexivity.
Qed.

(** X10. The flag set by a map click on a feature shields the selection
    from exactly one click reaching [document]: after the click on the
    feature and one document click the panel is open on that feature, and a
    further document click outside the info panel closes the panel, clears
    the selection and takes the highlight off that feature. *)
Theorem feature_click_shields_one_document_click (s : State) (f : Feature)
    (l : Layer) (vp : Viewport) (target : ClickTarget) :
  inInfoPanel target = false ->
  (infoPanelOpen (run s [MapClick (Some (f, l)) vp; DocumentClick target]) = true /\
   selectedFeature (run s [MapClick (Some (f, l)) vp; DocumentClick target]) = Some f) /\
  (infoPanelOpen
     (run s [MapClick (Some (f, l)) vp; DocumentClick target; DocumentClick target])
   = false /\
   selectedFeature
     (run s [MapClick (Some (f, l)) vp; DocumentClick target; DocumentClick target])
   = None /\
   ~ highlighted
       (run s [MapClick (Some (f, l)) vp; DocumentClick target; DocumentClick target]) f).
Proof.
  intros Htarget. cbn [run fold_left].
  pose proof (mapClick_ends f l vp s) as Hends.
  destruct (EndsSelecting_fields f s _ Hends) as (Hsel & Hopen & _).
  pose proof (EndsSelecting_flag f s _ Hends) as Hflag.
  set (s1 := step s (MapClick (Some (f, l)) vp)) in *.
  destruct (documentClick_flagged target s1 Hflag) as (Hsel2 & _ & Hopen2 & Hflag2).
  change (step s1 (DocumentClick target)) with (documentClick target s1).
  set (s2 := documentClick target s1) in *.
  rewrite Hsel in Hsel2. rewrite Hopen in Hopen2.
  split; [split; assumption|].
  change (step s2 (DocumentClick target)) with (documentClick target s2).
  destruct (documentClick_outside target s2 Hflag2 Hopen2 Htarget) as (Hsel3 & Hsty3 & Hopen3).
  split; [exact Hopen3|]. split; [exact Hsel3|].
  unfold highlighted. rewrite Hsty3. unfold clearedStyle. rewrite Hsel2.
  rewrite lookup_delete_eq. intros [st Hst]. discriminate.
Qed.

End Panel.
End PanelProps.

(** ** Edges of the search: values that are not strings, suggestion clicks *)

Module SearchEdgeProps.
Import Formatter Search App SearchProps ScanProps StringFacts HighlightProps PageProps Frames.



Section Edges.
Context `{Builtins}.

Lemma fieldIncludes_not_textual (v : value) (term : string) :
  textual v = false -> fieldIncludes v term = TypeError.
Proof.
  unfold fieldIncludes. destruct v as [| |n|s|]; cbn; try discriminate.
  - intros ->. reflexivity.
  - reflexivity.
Qed.

Lemma or_else_not_textual (a b : value) : textual a = false -> or_else a b = a.
Proof.
  unfold or_else. destruct a as [| |n|s|]; cbn; try discriminate.
  - intros ->. reflexivity.
  - reflexivity.
Qed.

Lemma suggestMatches_bad_name (f : Feature) (term : string) :
  textual (get f "name") = false -> suggestMatches f term = TypeError.
Proof.
  intros Hname. unfold suggestMatches.
  rewrite (or_else_not_textual _ _ Hname), (fieldIncludes_not_textual _ _ Hname).
  reflexivity.
Qed.


Lemma filterMatching_throws (term : string) (l : list Feature) (f : Feature) :
  In f l -> suggestMatches f term = TypeError -> filterMatching term l = TypeError.
Proof.
  intros Hin Hf. induction l as [|a l IH]; [destruct Hin|]. cbn.
  destruct Hin as [->|Hin].
  - rewrite Hf. reflexivity.
  - destruct (suggestMatches a term); [|reflexivity]. rewrite (IH Hin). reflexivity.
Qed.





End Edges.

Section Handlers.
Context `{Builtins} `{Rendering}.

(** X12. One stored feature whose [name] is truthy and not a string (a
    non-zero number, an object) makes the keyup handler throw on every
    non-empty query: the suggestions element is left emptied, its display
    untouched, and nothing else changes. *)
Theorem keyup_aborts_on_bad_name (s : State) (f : Feature) :
  In f (allFeatures s) ->
  textual (get f "name") = false ->
  toLowerCase (trim (searchBoxValue s)) <> "" ->
  searchBoxKeyUp s = Threw (set_suggestionsList [] s).
Proof.
  intros Hin Hname Hterm. unfold searchBoxKeyUp.
  cbn [searchBoxValue allFeatures set_suggestionsList].
  destruct (toLowerCase (trim (searchBoxValue s))) as [|c term] eqn:Eterm;
    [contradiction|].
  replace (0 <? Z.of_nat (String.length (String c term))) with true
    by (symmetry; apply Z.ltb_lt; cbn [String.length]; lia).
  rewrite (filterMatching_throws _ _ f Hin (suggestMatches_bad_name f _ Hname)).
  reflexivity.
Qed.



Lemma typeIs_not_textual (v : value) (literal : string) :
  textual v = false -> typeIs v literal = TypeError.
Proof.
  unfold typeIs. destruct v as [| |n|t|]; cbn; try discriminate.
  - intros ->. reflexivity.
  - reflexivity.
Qed.


End Handlers.
End SearchEdgeProps.

(** ** The pointer: tooltip and hit detection *)

Module Pointer.
Import Formatter Search App.

(** [map.forEachFeatureAtPixel] calls its callback on the features found at
    the pixel, [hits], in order, and stops at the first truthy answer. The
    callback of the pointermove handler answers the feature itself, so the
    first hit is the result. *)
Definition firstReported (hits : list (Feature * Layer)) : option Feature :=
  match hits with
  | [] => None
  | (feature, _) :: _ => Some feature
  end.

(** The callback of the click handler answers nothing and overwrites
    [clickedFeature] and [clickedLayer] on every call. *)
Definition lastReported (hits : list (Feature * Layer)) : option (Feature * Layer) :=
  fold_left (fun _ hit => Some hit) hits None.

(** The children of the tooltip element. *)
Inductive TooltipNode : Type :=
  | Strong (text : value)
  | LineBreak
  | Text (text : value).

Section Tooltip.
Context {Coordinate : Type}.

(** The tooltip element and the overlay that carries it. *)
Record Tooltip : Type := {
  overlayPosition : option Coordinate;
  tooltipContent : list TooltipNode;
  tooltipShown : bool
}.

(** [map.on('pointermove', ...)]. *)
Definition pointerMove (hits : list (Feature * Layer)) (coordinate : Coordinate)
    (t : Tooltip) : Tooltip :=
  match firstReported hits with
  | Some feature =>
      let featureName :=
        or_else (or_else (get feature "nombre") (get feature "name")) (VStr "") in
      let featureType := or_else (get feature "type") (VStr "") in
      {| overlayPosition := Some coordinate;
         tooltipContent :=
           Strong featureName
           :: (if truthy featureType then [LineBreak; Text featureType] else []);
         tooltipShown := true |}
  | None =>
      {| overlayPosition := overlayPosition t; tooltipContent := tooltipContent t;
         tooltipShown := false |}
  end.

End Tooltip.

Section Click.
Context `{Builtins} `{Rendering}.

(** [map.on('click', ...)] from the features at the pixel. *)
Definition mapClickAt (hits : list (Feature * Layer)) (vp : Viewport) (s : State)
    : Outcome :=
  mapClick (lastReported hits) vp s.

End Click.
End Pointer.

Module PointerProps.
Import Formatter Search App Pointer HighlightProps PageProps.

Lemma lastReported_snoc (hits : list (Feature * Layer)) (hit : Feature * Layer) :
  lastReported (hits ++ [hit]) = Some hit.
Proof. unfold lastReported. rewrite fold_left_app. reflexivity. Qed.

Section Props.
Context `{Builtins} `{Rendering} {Coordinate : Type}.

(** X16. When several features lie under the pointer and both detections
    report them in the same order, the tooltip names the first one reported
    and a click selects the last one reported. *)
Theorem tooltip_first_click_last (a b : Feature) (la lb : Layer)
    (between : list (Feature * Layer)) (coordinate : Coordinate) (t : Tooltip)
    (vp : Viewport) (s : State) :
  head (tooltipContent (pointerMove ((a, la) :: between ++ [(b, lb)]) coordinate t))
  = Some (Strong (or_else (or_else (get a "nombre") (get a "name")) (VStr ""))) /\
  selectedFeature (finalState (mapClickAt ((a, la) :: between ++ [(b, lb)]) vp s))
  = Some b /\
  panelContent (finalState (mapClickAt ((a, la) :: between ++ [(b, lb)]) vp s))
  = getFormattedFeatureInfo b.
Proof.
  split; [reflexivity|]. unfold mapClickAt.
  change ((a, la) :: between ++ [(b, lb)])%list
    with (((a, la) :: between) ++ [(b, lb)])%list.
  rewrite lastReported_snoc.
  destruct (EndsSelecting_fields b s _ (mapClick_ends b lb vp s))
    as (Hsel & _ & Hcontent & _).
  split; [exact Hsel|exact Hcontent].
Qed.

(** X17. For a feature that has both a [nombre] and a [name], the tooltip
    shows the [nombre] while the suggestion item and the title of the info
    panel show the [name]. *)
Theorem tooltip_prefers_nombre (f : Feature) (l : Layer) (coordinate : Coordinate)
    (t : Tooltip) :
  truthy (get f "nombre") = true -> truthy (get f "name") = true ->
  head (tooltipContent (pointerMove [(f, l)] coordinate t))
  = Some (Strong (get f "nombre")) /\
  suggestionItem f = SuggestionItem f (get f "name") (or_else (get f "type") (VStr "")) /\
  head (getFormattedFeatureInfo f) = Some (Title (get f "name")).
Proof.
  intros Hnombre Hname. unfold pointerMove, suggestionItem, getFormattedFeatureInfo.
  cbn [firstReported tooltipContent head]. unfold or_else.
  rewrite Hnombre, Hname. cbn. rewrite Hnombre. repeat split; reflexivity.
Qed.

End Props.
End PointerProps.

(** ** The style functions of the layers *)

Module Styles.
Import App.

(** A line dash: what the feature carries, or a literal pattern. *)
Inductive Dash : Type :=
  | DashValue (v : value)
  | DashPattern (pattern : list Z).

(** [new ol.style.Stroke({color, width, lineDash})]. *)
Record Stroke : Type := {
  strokeColor : value;
  strokeWidth : value;
  strokeLineDash : Dash
}.

(** [ol.style.Circle] and [ol.style.RegularShape]; the regular shapes of
    the script all have the angle [Math.PI / 4]. *)
Inductive Image : Type :=
  | CircleImage (radius : value) (fill : value) (outline : Stroke)
  | RegularShape (points : Z) (radius : value) (fill : value) (outline : Stroke).

(** The geometry a style draws: the feature's own, or the interior point of
    its polygon. *)
Inductive StyleGeometry : Type :=
  | OwnGeometry
  | InteriorPoint.

(** [new ol.style.Style({stroke, image, geometry})]. *)
Record OlStyle : Type := {
  stroke : option Stroke;
  image : option Image;
  styleGeometry : option StyleGeometry
}.

Definition solid (color width : value) : Stroke :=
  {| strokeColor := color; strokeWidth := width; strokeLineDash := DashValue VUndefined |}.

Definition lineOnly (st : Stroke) : OlStyle :=
  {| stroke := Some st; image := None; styleGeometry := None |}.

Definition marker (img : Image) (g : option StyleGeometry) : OlStyle :=
  {| stroke := None; image := Some img; styleGeometry := g |}.

(** The [glowStyle] constant. *)
Definition glow : OlStyle :=
  {| stroke := Some (solid (VStr "rgba(255, 255, 255, 0.5)") (VNum 10));
     image := Some (CircleImage (VNum 10) (VStr "rgba(255, 255, 255, 0.2)")
                                (solid (VStr "rgba(255, 255, 255, 0.5)") (VNum 5)));
     styleGeometry := None |}.

(** The stroke both cable layers build from the feature, with the default
    colour of the layer. *)
Definition cableStroke (defaultColor : string) (feature : Feature) : Stroke :=
  let geojsonColor := get feature "color" in
  let geojsonWidth := get feature "width" in
  let geojsonLineDash := get feature "lineDash" in
  {| strokeColor := or_else geojsonColor (VStr defaultColor);
     strokeWidth := or_else geojsonWidth (VNum 3);
     strokeLineDash := DashValue (or_else geojsonLineDash VUndefined) |}.

(** The style function of [cableLayer]. *)
Definition cableStyle (feature : Feature) : list OlStyle :=
  [lineOnly (solid (VStr "rgba(0, 0, 0, 0.01)") (VNum 15));
   lineOnly (cableStroke "rgba(255, 0, 0, 0.7)" feature)].

(** The style function of [landCableLayer]. *)
Definition landCableStyle (feature : Feature) : OlStyle :=
  lineOnly (cableStroke "rgba(0, 0, 255, 0.7)" feature).

Definition circleOf (pointSize fillColor : value) : Image :=
  CircleImage pointSize fillColor (solid (VStr "#333") (VNum 1)).

Definition squareOf (pointSize fillColor : value) : Image :=
  RegularShape 4 pointSize fillColor (solid (VStr "#333") (VNum 1)).

Section StyleFunctions.
Context `{Builtins}.

(** The style function of [pointLayer]; the test
    [shape && shape.toLowerCase() === literal] is the one [typeIs] embeds. *)
Definition pointStyle (feature : Feature) : Result OlStyle :=
  let shape := get feature "shape" in
  let fillColor := or_else (get feature "color") (VStr "#FFD700") in
  let pointSize := or_else (get feature "size") (VNum 5) in
  match typeIs shape "circle" with
  | TypeError => TypeError
  | Ok true => Ok (marker (circleOf pointSize fillColor) None)
  | Ok false =>
      match typeIs shape "square" with
      | TypeError => TypeError
      | Ok true => Ok (marker (squareOf pointSize fillColor) None)
      | Ok false => Ok (marker (circleOf pointSize fillColor) None)
      end
  end.




End StyleFunctions.
End Styles.

Module StyleProps.
Import App SearchProps PageProps SearchEdgeProps Styles.

Section Rules.
Context `{Builtins}.

(** The value is a string that reads [literal] in lower case. *)
Definition shapeNamed (v : value) (literal : string) : bool :=
  match v with
  | VStr t => String.eqb (toLowerCase t) literal
  | _ => false
  end.

Lemma typeIs_textual (v : value) (literal : string) :
  literal <> "" -> textual v = true -> typeIs v literal = Ok (shapeNamed v literal).
Proof.
  intros Hlit Hv. destruct v as [| |n|t|]; cbn in Hv; try discriminate.
  - reflexivity.
  - reflexivity.
  - unfold typeIs. cbn. rewrite Hv. reflexivity.
  - apply typeIs_string, Hlit.
Qed.

Lemma shapeNamed_exclusive (v : value) (a b : string) :
  a <> b -> shapeNamed v a = true -> shapeNamed v b = false.
Proof.
  intros Hab. destruct v as [| |n|t|]; cbn; try discriminate.
  intros Ha%String.eqb_eq. apply String.eqb_neq. congruence.
Qed.

(** X18. The point layer draws a feature as a square exactly when its
    [shape] reads "square" in lower case, and as a circle for every other
    shape, "circle" or not, and for a missing one; a [shape] that is truthy
    and not a string makes the style function throw. *)
Theorem point_is_square_or_circle (feature : Feature) :
  (textual (get feature "shape") = false -> pointStyle feature = TypeError) /\
  (textual (get feature "shape") = true ->
   pointStyle feature
   = Ok (marker ((if shapeNamed (get feature "shape") "square"
                  then squareOf else circleOf)
                   (or_else (get feature "size") (VNum 5))
                   (or_else (get feature "color") (VStr "#FFD700"))) None)).
Proof.
  unfold pointStyle. split; intros Hshape.
  - rewrite (typeIs_not_textual _ "circle" Hshape). reflexivity.
  - rewrite (typeIs_textual _ "circle"), (typeIs_textual _ "square")
      by (assumption || discriminate).
    destruct (shapeNamed (get feature "shape") "circle") eqn:Hcircle.
    + rewrite (shapeNamed_exclusive _ "circle" "square") by (assumption || discriminate).
      reflexivity.
    + destruct (shapeNamed (get feature "shape") "square"); reflexivity.
Qed.


End Rules.

(** A cable whose [color], [width] and [lineDash] are each missing,
    null, empty or zero is drawn with the wide transparent hit stroke
    followed by the solid red default of width 3, and such a land cable
    with the solid blue default of width 3. *)
Theorem line_defaults (feature : Feature) :
  truthy (get feature "color") = false ->
  truthy (get feature "width") = false ->
  truthy (get feature "lineDash") = false ->
  cableStyle feature
  = [lineOnly (solid (VStr "rgba(0, 0, 0, 0.01)") (VNum 15));
     lineOnly (solid (VStr "rgba(255, 0, 0, 0.7)") (VNum 3))] /\
  landCableStyle feature = lineOnly (solid (VStr "rgba(0, 0, 255, 0.7)") (VNum 3)).
Proof.
  intros Hcolor Hwidth Hdash.
  unfold cableStyle, landCableStyle, cableStroke, or_else.
  rewrite Hcolor, Hwidth, Hdash. split; reflexivity.
Qed.

End StyleProps.

(** ** The first revision of the search *)

(** The file also holds an earlier revision of the script, in which
    [performSearch] and the keyup handler read as below; it has no selection
    and no highlight. *)
Module RevisionOne.
Import Formatter Search App.

#[local] Infix "|||" := orR (at level 50, left associativity).

Section Search.
Context `{Builtins} `{Rendering}.

(** The test of [allFeatures.forEach] in the first [performSearch]. *)
Definition nameIncludes (feature : Feature) (searchTerm : string) : Result bool :=
  let name := or_else (get feature "name") (get feature "nombre") in
  fieldIncludes name (toLowerCase searchTerm).

(** [allFeatures.forEach]: every match overwrites [foundFeature]. *)
Fixpoint scanStore (searchTerm : string) (features : list Feature)
    (foundFeature : option Feature) : Result (option Feature) :=
  match features with
  | [] => Ok foundFeature
  | feature :: rest =>
      match nameIncludes feature searchTerm with
      | TypeError => TypeError
      | Ok true => scanStore searchTerm rest (Some feature)
      | Ok false => scanStore searchTerm rest foundFeature
      end
  end.

Definition performSearch1 (searchTerm : string) (vp : Viewport) (s : State) : Outcome :=
  if String.eqb searchTerm "" then Done (set_alerts (alerts s ++ [emptyQueryAlert]) s)
  else
    match scanStore searchTerm (allFeatures s) None with
    | TypeError => Threw s
    | Ok (Some foundFeature) =>
        let s := openInfoPanel foundFeature s in
        match geometry foundFeature with
        | Some extent =>
            match searchMaxZoom foundFeature with
            | TypeError => Threw s
            | Ok zoom =>
                Done (set_fitRequests
                        (fitRequests s ++
                         [{| fitExtent := extent; duration := 700;
                             padding := fitPadding vp; maxZoom := zoom |}]) s)
            end
        | None => Done s
        end
    | Ok None =>
        let s := set_suggestionsList (suggestionsList s ++ [NoResultsMessage noMatchesText]) s in
        Done (set_suggestionsShown true s)
    end.

(** The callback of [allFeatures.filter] in the first keyup handler. *)
Definition suggestMatches1 (feature : Feature) (searchTerm : string) : Result bool :=
  let name := or_else (get feature "name") (get feature "nombre") in
  let type := get feature "type" in
  fieldIncludes name searchTerm ||| fieldIncludes type searchTerm.

Fixpoint filterMatching1 (searchTerm : string) (features : list Feature)
    : Result (list Feature) :=
  match features with
  | [] => Ok []
  | feature :: rest =>
      match suggestMatches1 feature searchTerm with
      | TypeError => TypeError
      | Ok b =>
          match filterMatching1 searchTerm rest with
          | TypeError => TypeError
          | Ok l => Ok (if b then feature :: l else l)
          end
      end
  end.

(** The first keyup handler: one item per matching feature. *)
Definition searchBoxKeyUp1 (s : State) : Outcome :=
  let searchTerm := toLowerCase (trim (searchBoxValue s)) in
  let s := set_suggestionsList [] s in
  if (0 <? Z.of_nat (String.length searchTerm)) then
    match filterMatching1 searchTerm (allFeatures s) with
    | TypeError => Threw s
    | Ok matchingFeatures =>
        if (0 <? Z.of_nat (length matchingFeatures)) then
          let s := set_suggestionsList (map suggestionItem matchingFeatures) s in
          Done (set_suggestionsShown true s)
        else
          let s := set_suggestionsList [NoResultsMessage (noResultsFor searchTerm)] s in
          Done (set_suggestionsShown true s)
    end
  else Done (set_suggestionsShown false s).

End Search.
End RevisionOne.

Module RevisionOneProps.
Import Formatter Search App SearchProps PageProps Frames RevisionOne.

Section Props.
Context `{Builtins} `{Rendering}.

Lemma scanStore_no_match (t : string) (features : list Feature) found :
  Forall (fun f => nameIncludes f t = Ok false) features ->
  scanStore t features found = Ok found.
Proof.
  induction 1 as [|f features Hf _ IH]; cbn; [reflexivity|]. rewrite Hf. exact IH.
Qed.

Lemma scanStore_last (t : string) (pre post : list Feature) (f : Feature) found :
  Forall (fun g => exists b, nameIncludes g t = Ok b) pre ->
  nameIncludes f t = Ok true ->
  Forall (fun g => nameIncludes g t = Ok false) post ->
  scanStore t (pre ++ f :: post) found = Ok (Some f).
Proof.
  intros Hpre Hf Hpost. revert found.
  induction Hpre as [|g pre [b Hb] _ IH]; intros found; cbn.
  - rewrite Hf. apply scanStore_no_match, Hpost.
  - rewrite Hb. destruct b; apply IH.
Qed.

(** X20. In the first revision [performSearch] does scan the Feature
    Store: on a non-empty term, the last stored feature whose
    name-or-nombre contains the term is the one that fills the opened info
    panel. *)
Theorem revision_one_last_of_store (s : State) (vp : Viewport) (q : string)
    (pre post : list Feature) (f : Feature) :
  q <> "" ->
  allFeatures s = (pre ++ f :: post)%list ->
  Forall (fun g => exists b, nameIncludes g q = Ok b) pre ->
  nameIncludes f q = Ok true ->
  Forall (fun g => nameIncludes g q = Ok false) post ->
  panelContent (finalState (performSearch1 q vp s)) = getFormattedFeatureInfo f /\
  infoPanelOpen (finalState (performSearch1 q vp s)) = true.
Proof.
  intros Hq Hstore Hpre Hf Hpost. unfold performSearch1.
  destruct (String.eqb_spec q "") as [Heq|_]; [contradiction|].
  rewrite Hstore, (scanStore_last q pre post f None Hpre Hf Hpost). cbn zeta.
  destruct (geometry f); [destruct (searchMaxZoom f)|]; cbn [finalState];
    cbn [panelContent infoPanelOpen set_fitRequests];
    rewrite openInfoPanel_content, openInfoPanel_open; split; reflexivity.
Qed.

(** X21. The second revision only widened the tests: a feature the first
    [performSearch] accepts is accepted by the second one, and a feature the
    first keyup handler accepts is accepted by the second one. *)
Theorem revision_two_accepts_more (f : Feature) (q term : string) :
  (nameIncludes f q = Ok true -> performSearchMatches f q = Ok true) /\
  (suggestMatches1 f term = Ok true -> suggestMatches f term = Ok true).
Proof.
  split.
  - unfold nameIncludes, performSearchMatches. intros ->. reflexivity.
  - unfold suggestMatches1, suggestMatches.
    destruct (fieldIncludes (or_else (get f "name") (get f "nombre")) term) as [[]|];
      cbn [orR]; [reflexivity| |discriminate].
    intros ->. reflexivity.
Qed.

End Props.
End RevisionOneProps.

(** ** Pages and layer toggles *)

Module Chrome.

(** The two pages, the four checkboxes of the layer controls, the
    visibility of the four layers, and the centre (longitude, latitude) and
    zoom the start button sets. *)
Record Pages : Type := {
  landingActive : bool;
  mapActive : bool;
  checked : Layer -> bool;
  visible : Layer -> bool;
  viewCenter : Z * Z;
  viewZoom : Z
}.

(** The click listener of the start button. *)
Definition startClick (p : Pages) : Pages :=
  {| landingActive := false; mapActive := true;
     checked := fun _ => true; visible := fun _ => true;
     viewCenter := (-70, -30); viewZoom := 3 |}.

(** The click listener of the back button. *)
Definition backClick (p : Pages) : Pages :=
  {| landingActive := true; mapActive := false;
     checked := checked p; visible := visible p;
     viewCenter := viewCenter p; viewZoom := viewZoom p |}.

(** The ['change'] listener of the checkbox of [layer], once the checkbox
    has taken the state [nowChecked]. *)
Definition toggleChange (layer : Layer) (nowChecked : bool) (p : Pages) : Pages :=
  {| landingActive := landingActive p; mapActive := mapActive p;
     checked := fun l => if decide (l = layer) then nowChecked else checked p l;
     visible := fun l => if decide (l = layer) then nowChecked else visible p l;
     viewCenter := viewCenter p; viewZoom := viewZoom p |}.

Inductive PageEvent : Type :=
  | StartClick
  | BackClick
  | ToggleChange (layer : Layer) (nowChecked : bool).

Definition pageStep (p : Pages) (e : PageEvent) : Pages :=
  match e with
  | StartClick => startClick p
  | BackClick => backClick p
  | ToggleChange layer nowChecked => toggleChange layer nowChecked p
  end.

Definition pageRun (p : Pages) (es : list PageEvent) : Pages := fold_left pageStep es p.

(** Each layer is visible exactly when its checkbox is checked, and
    exactly one page is active. *)
Definition consistent (p : Pages) : Prop :=
  (forall l, visible p l = checked p l) /\ landingActive p = negb (mapActive p).

Lemma pageStep_consistent (p : Pages) (e : PageEvent) :
  consistent p -> consistent (pageStep p e).
Proof.
  intros [Hvis Hpage]. destruct e as [| |layer nowChecked]; cbn; split; cbn; auto.
  intros l. destruct (decide (l = layer)); auto.
Qed.

Lemma pageRun_consistent (es : list PageEvent) (p : Pages) :
  consistent p -> consistent (pageRun p es).
Proof.
  revert p; induction es as [|e es IH]; intros p Hp; cbn; [exact Hp|].
  apply IH, pageStep_consistent, Hp.
Qed.

(** X22. Whatever the checkboxes and the layers were before, once the
    start button has been clicked every layer is visible exactly when its
    checkbox is checked and exactly one of the two pages is active, through
    any later clicks on start, back and the checkboxes. *)
Theorem consistent_after_start (p : Pages) (before after : list PageEvent) :
  (forall l, visible (pageRun p (before ++ StartClick :: after)) l
             = checked (pageRun p (before ++ StartClick :: after)) l) /\
  landingActive (pageRun p (before ++ StartClick :: after))
  = negb (mapActive (pageRun p (before ++ StartClick :: after))).
Proof.
  unfold pageRun. rewrite fold_left_app. cbn [fold_left pageStep].
  apply pageRun_consistent. split; reflexivity.
Qed.

End Chrome.

(** ** Runs of the further properties on the sample data *)

Module ExtraRuns.
Import Formatter Search App SearchProps ScanProps Examples HighlightProps HighlightRuns.
Import PageProps SearchRuns PanelProps SearchEdgeProps Pointer PointerProps.
Import Styles StyleProps RevisionOne RevisionOneProps.

(** A feature whose name is a number. *)
Definition numberedSite : Feature := {|
  fid := 8;
  properties := [("name", VNum 42); ("comuna", VStr "Quilicura")];
  geometry := Some (7, 7, 7, 7)
|}.

(** A feature with a Spanish and an English name, drawn as a square. *)
Definition twoNames : Feature := {|
  fid := 9;
  properties := [("nombre", VStr "Estación Arica"); ("name", VStr "Arica Station");
                 ("shape", VStr "Square"); ("type", VStr "Punto de aterrizaje")];
  geometry := Some (1, 1, 1, 1)
|}.

Definition outside : ClickTarget :=
  {| inLayerControls := false; inToggleButton := false; inInfoPanel := false;
     inSearchContainer := false |}.

Section Runs.
#[local] Existing Instance asciiBuiltins.
#[local] Existing Instance sampleRendering.

Lemma panel_shows_selection_witness :
  selectedFeature (run (initialState noData) twoSelections) = Some dcSantiago /\
  panelContent (run (initialState noData) twoSelections)
  = getFormattedFeatureInfo dcSantiago.
Proof.
  assert (Hsel : selectedFeature (run (initialState noData) twoSelections)
                 = Some dcSantiago) by reflexivity.
  split; [exact Hsel|].
  exact (proj2 (panel_shows_selection noData twoSelections) dcSantiago Hsel).
Defined.


Lemma feature_click_shields_one_document_click_witness :
  selectedFeature
    (run (initialState noData)
         [MapClick (Some (cableA, cableLayer)) desktop; DocumentClick outside])
  = Some cableA /\
  selectedFeature
    (run (initialState noData)
         [MapClick (Some (cableA, cableLayer)) desktop; DocumentClick outside;
          DocumentClick outside])
  = None.
Proof.
  destruct (feature_click_shields_one_document_click (initialState noData) cableA
              cableLayer desktop outside eq_refl)
    as ((_ & Hfirst) & (_ & Hsecond & _)).
  split; [exact Hfirst|exact Hsecond].
Defined.



(** A store and a cable source that hold a feature with a numeric name,
    and "cable" typed in the search box. *)
Definition withNumberedSite : State :=
  run (initialState noData)
      [SourceChange cableLayer (loaded [cableA; numberedSite]); SearchBoxInput "cable"].

Lemma keyup_aborts_on_bad_name_witness :
  searchBoxKeyUp withNumberedSite = Threw (set_suggestionsList [] withNumberedSite).
Proof.
  apply (keyup_aborts_on_bad_name withNumberedSite numberedSite).
  - right. left. reflexivity.
  - reflexivity.
  - discriminate.
Defined.





Lemma tooltip_prefers_nombre_witness :
  head (tooltipContent
          (pointerMove [(twoNames, pointLayer)] (0, 0)
             {| overlayPosition := None; tooltipContent := []; tooltipShown := false |}))
  = Some (Strong (VStr "Estación Arica")) /\
  head (getFormattedFeatureInfo twoNames) = Some (Title (VStr "Arica Station")).
Proof.
  destruct (tooltip_prefers_nombre twoNames pointLayer (0, 0)
              {| overlayPosition := None; tooltipContent := []; tooltipShown := false |}
              eq_refl eq_refl)
    as (Htip & _ & Htitle).
  split; [exact Htip|exact Htitle].
Defined.

Lemma point_is_square_or_circle_witness :
  pointStyle twoNames
  = Ok (marker (squareOf (VNum 5) (VStr "#FFD700")) None) /\
  pointStyle valparaiso
  = Ok (marker (circleOf (VNum 5) (VStr "#FFD700")) None).
Proof.
  split.
  - exact (proj2 (point_is_square_or_circle twoNames) eq_refl).
  - exact (proj2 (point_is_square_or_circle valparaiso) eq_refl).
Defined.


Lemma line_defaults_witness :
  cableStyle landCableA
  = [lineOnly (solid (VStr "rgba(0, 0, 0, 0.01)") (VNum 15));
     lineOnly (solid (VStr "rgba(255, 0, 0, 0.7)") (VNum 3))] /\
  landCableStyle landCableA = lineOnly (solid (VStr "rgba(0, 0, 255, 0.7)") (VNum 3)).
Proof. exact (line_defaults landCableA eq_refl eq_refl eq_refl). Defined.

Lemma revision_one_last_of_store_witness :
  panelContent (finalState (performSearch1 "cable a" desktop pointsThenCables))
  = getFormattedFeatureInfo cableA /\
  infoPanelOpen (finalState (performSearch1 "cable a" desktop pointsThenCables)) = true.
Proof.
  assert (Hq : "cable a" <> "") by discriminate.
  apply (revision_one_last_of_store pointsThenCables desktop "cable a"
           [cableStation] [] cableA Hq).
  - reflexivity.
  - repeat constructor. exists true. reflexivity.
  - reflexivity.
  - constructor.
Defined.

Lemma revision_two_accepts_more_witness :
  performSearchMatches dcSantiago "Santiago" = Ok true /\
  suggestMatches dcSantiago "data" = Ok true.
Proof.
  destruct (revision_two_accepts_more dcSantiago "Santiago" "data") as [Hfind Hsuggest].
  split; [exact (Hfind eq_refl)|exact (Hsuggest eq_refl)].
Defined.

End Runs.
End ExtraRuns.

(** ** The search box and the search button together *)

Module SearchBoxProps.
Import Formatter Search App.

Section Box.
Context `{Builtins} `{Rendering}.




End Box.
End SearchBoxProps.
